(** * weather_data: a shallow embedding of the pipeline and its properties

    The Python sources embedded here are
      - [Weather.py]          (class [WeatherData]),
      - [Writer.py]           (classes [Writer], [LocalWriter], [AzureBlobWriter]),
      - [WriterFactory.py]    (function [get_writer]),
      - [WeatherPipeline.py]  (class [WeatherPipeline] and the script body).

    Python code runs in a state-and-exception monad over a [World] that
    holds everything the program can observe or change: the process
    environment, the remote weather provider, the DuckDB table, the file
    system, the list of requests sent and the lines printed. *)

From Stdlib Require Import Ascii.
From stdpp Require Import gmap strings list pretty.

Set Default Proof Using "Type".
Set Warnings "-register-all".

(** ** Python values *)

(** The documents the provider returns ([response.json()]).  JSON numbers are
    restricted to integers here; a [dict] is kept as an association list in
    insertion order, which is the order [str] prints it in. *)
Inductive PyVal : Type :=
  | PyNone
  | PyBool (b : bool)
  | PyInt (z : Z)
  | PyStr (s : string)
  | PyList (l : list PyVal)
  | PyDict (kv : list (string * PyVal)).

(** The empty dictionary literal [{}]. *)
Definition empty_dict : PyVal := PyDict [].

(** *** [str] and [repr] *)

Definition hex_digit (n : N) : ascii :=
  match n with
  | 0 => "0" | 1 => "1" | 2 => "2" | 3 => "3" | 4 => "4" | 5 => "5"
  | 6 => "6" | 7 => "7" | 8 => "8" | 9 => "9" | 10 => "a" | 11 => "b"
  | 12 => "c" | 13 => "d" | 14 => "e" | _ => "f"
  end%N%char.

(** One character of a string inside [repr], quoted with [q].  A string is
    a sequence of bytes here, the UTF-8 encoding of the text: bytes above 127
    are left as they are, which is what [repr] does for printable text; the
    escapes it makes for code points beyond ASCII that are not printable
    (U+00A0 and the like) are outside the model. *)
Definition repr_char (q : ascii) (c : ascii) : string :=
  let n := N_of_ascii c in
  if Ascii.eqb c q then String "\" (String q "")
  else if Ascii.eqb c "\" then "\\"
  else if (n =? 9)%N then "\t"
  else if (n =? 10)%N then "\n"
  else if (n =? 13)%N then "\r"
  else if ((n <? 32) || (n =? 127))%N then
    String "\" (String "x" (String (hex_digit (n / 16)) (String (hex_digit (n mod 16)) "")))
  else String c "".

Fixpoint repr_chars (q : ascii) (s : string) : string :=
  match s with
  | EmptyString => ""
  | String c s' => repr_char q c +:+ repr_chars q s'
  end.

Fixpoint contains_char (c : ascii) (s : string) : bool :=
  match s with
  | EmptyString => false
  | String d s' => Ascii.eqb c d || contains_char c s'
  end.

Definition squote : ascii := "'".
Definition dquote : ascii := ascii_of_N 34.

(** [repr] of a [str]: single quotes, unless the text has a single quote and
    no double quote. *)
Definition repr_str (s : string) : string :=
  let q : ascii :=
    if contains_char squote s && negb (contains_char dquote s) then dquote else squote in
  String q (repr_chars q s +:+ String q "").

Fixpoint join (sep : string) (l : list string) : string :=
  match l with
  | [] => ""
  | [x] => x
  | x :: l' => x +:+ sep +:+ join sep l'
  end.

Fixpoint repr (v : PyVal) : string :=
  match v with
  | PyNone => "None"
  | PyBool true => "True"
  | PyBool false => "False"
  | PyInt z => pretty z
  | PyStr s => repr_str s
  | PyList l => "[" +:+ join ", " (map repr l) +:+ "]"
  | PyDict kv =>
      "{" +:+ join ", " (map (fun p => repr_str (fst p) +:+ ": " +:+ repr (snd p)) kv) +:+ "}"
  end.

(** [str(v)]: the text itself for a [str], [repr] otherwise. *)
Definition py_str (v : PyVal) : string :=
  match v with
  | PyStr s => s
  | _ => repr v
  end.

(** [f"{x}"] for an optional string: [None] prints as the word None. *)
Definition fmt_opt (o : option string) : string :=
  match o with
  | Some s => s
  | None => "None"
  end.

(** *** [str.lower] *)

(** Lower-casing of the ASCII letters. The only code points outside ASCII
    whose lower case is an ASCII letter are U+212A (k) and U+0130 (i + dot),
    so membership of [s.lower()] in [("yes", "no")] is decided by this
    function. *)
Definition lower_char (c : ascii) : ascii :=
  let n := N_of_ascii c in
  if ((65 <=? n) && (n <=? 90))%N then ascii_of_N (n + 32) else c.

Fixpoint lower (s : string) : string :=
  match s with
  | EmptyString => ""
  | String c s' => String (lower_char c) (lower s')
  end.

(** ** Exceptions *)

Inductive exn_class : Type :=
  | Exception_
  | TypeError
  | ValueError
  | UnicodeEncodeError
  | RecursionError
  | AttributeError
  | UnboundLocalError
  | ModuleNotFoundError
  | OSError
  | FileNotFoundError
  | FileExistsError
  | NotADirectoryError
  | IsADirectoryError
  | RequestException
  | ConnectionError_
  | Timeout
  | MissingSchema
  | HTTPError
  | JSONDecodeError
  | DuckDBError
  | InvalidInputException
  | CatalogException.

Global Instance exn_class_eq_dec : EqDecision exn_class.
Proof. solve_decision. Defined.

(** The direct base class, [None] for [Exception] itself.  [IOError] is an
    alias of [OSError]; [requests.RequestException] derives from it, and
    [requests.JSONDecodeError] is a [RequestException] (requests >= 2.27).
    [DuckDBError] is [duckdb.Error], the base class of the engine's errors;
    the module has no class named DuckDBException. *)
Definition base_class (c : exn_class) : option exn_class :=
  match c with
  | Exception_ => None
  | TypeError | ValueError | AttributeError | OSError | DuckDBError => Some Exception_
  | RecursionError => Some Exception_
  | UnicodeEncodeError => Some ValueError
  | UnboundLocalError => Some Exception_
  | ModuleNotFoundError => Some Exception_
  | FileNotFoundError | FileExistsError | NotADirectoryError
  | IsADirectoryError | RequestException => Some OSError
  | ConnectionError_ | Timeout | MissingSchema | HTTPError
  | JSONDecodeError => Some RequestException
  | InvalidInputException | CatalogException => Some DuckDBError
  end.

Fixpoint issubclass_fuel (n : nat) (c d : exn_class) : bool :=
  bool_decide (c = d) ||
  match n with
  | O => false
  | S n' => match base_class c with
            | Some b => issubclass_fuel n' b d
            | None => false
            end
  end.

(** The class hierarchy above has depth three. *)
Definition issubclass (c d : exn_class) : bool := issubclass_fuel 3 c d.

Record exn : Type := mk_exn { exc_class : exn_class; exc_msg : string }.

Global Instance exn_eq_dec : EqDecision exn.
Proof. solve_decision. Defined.

(** [isinstance(e, d)], the test an [except d] clause makes. *)
Definition isinstance (e : exn) (d : exn_class) : bool := issubclass (exc_class e) d.

(** ** The world the program runs in *)

(** What the provider sends back: the status line and the body, [None] for
    a body that is not JSON. *)
Record Response : Type := mk_response {
  status_code : Z;
  reason : string;
  json_body : option PyVal
}.

(** What [requests.get] does for a URL: it raises (a connection error, a
    timeout, a URL without scheme) or it returns the response received. *)
Inductive GetOutcome : Type :=
  | NoResponse (e : exn)
  | Responded (r : Response).

(** Why [file.write(data)], or the flush when the file is closed, fails once
    the file is open: the encoding of the process cannot encode the text
    ([UnicodeEncodeError], nothing reaches the file), or the device refuses
    ([OSError]: no space left, I/O error) after [written] reached the file. *)
Inductive WriteFault : Type :=
  | CannotEncode (msg : string)
  | DeviceError (msg : string) (written : string).

(** A file-system node; a path is the list of its components from the root. *)
Inductive node : Type :=
  | Dir
  | File (content : string).

Global Instance node_eq_dec : EqDecision node.
Proof. solve_decision. Defined.

(** The instance [WeatherData()] builds. *)
Record WeatherData : Type := mk_WeatherData {
  API_KEY : string;
  BASE_URL : option string
}.

(** The instance [WeatherPipeline()] builds. [con] is the connection to the
    one database of the world, so only [weather_data] is kept. *)
Record WeatherPipeline : Type := mk_WeatherPipeline {
  weather_data : WeatherData
}.

Record World : Type := mk_World {
  (** [os.environ], after [load_dotenv()] *)
  environ : gmap string string;
  (** the provider, as [requests.get] sees it: the answer to a URL, given
      the requests sent before *)
  remote : list string -> string -> GetOutcome;
  (** the exception, other than requests' own [JSONDecodeError], that
      decoding the JSON body of a response raises, if any (a [ValueError]
      for an integer of more than 4300 digits, a [RecursionError]) *)
  decode_fault : Response -> option exn;
  (** the fault, if any, of writing a text to an open file *)
  write_fault : string -> string -> option WriteFault;
  (** the table [weather_location] of the database at [DUCK_DB_PATH]:
      its rows in stored order, [None] while the table does not exist *)
  weather_location : option (list string);
  (** the file system and the working directory *)
  fs : gmap (list string) node;
  cwd : list string;
  (** the URLs [requests.get] was called with, oldest first *)
  sent : list string;
  (** the calls [write(data, destination)] made on a writer, oldest first *)
  write_calls : list (string * string);
  (** the lines printed, oldest first *)
  stdout : list string;
  (** [datetime.now().strftime("%Y-%m-%d")] *)
  today : string;
  (** [SingletonMeta._instances] at the key [WeatherPipeline] *)
  instances : option WeatherPipeline
}.

Definition set_weather_location (t : option (list string)) (w : World) : World :=
  mk_World (environ w) (remote w) (decode_fault w) (write_fault w) t (fs w) (cwd w) (sent w) (write_calls w) (stdout w) (today w) (instances w).

Definition set_fs (f : gmap (list string) node) (w : World) : World :=
  mk_World (environ w) (remote w) (decode_fault w) (write_fault w) (weather_location w) f (cwd w) (sent w) (write_calls w) (stdout w)
    (today w) (instances w).

Definition set_sent (l : list string) (w : World) : World :=
  mk_World (environ w) (remote w) (decode_fault w) (write_fault w) (weather_location w) (fs w) (cwd w) l (write_calls w) (stdout w)
    (today w) (instances w).

Definition set_stdout (l : list string) (w : World) : World :=
  mk_World (environ w) (remote w) (decode_fault w) (write_fault w) (weather_location w) (fs w) (cwd w) (sent w) (write_calls w) l
    (today w) (instances w).

Definition set_write_calls (l : list (string * string)) (w : World) : World :=
  mk_World (environ w) (remote w) (decode_fault w) (write_fault w) (weather_location w) (fs w) (cwd w) (sent w) l (stdout w)
    (today w) (instances w).

Definition set_instances (i : option WeatherPipeline) (w : World) : World :=
  mk_World (environ w) (remote w) (decode_fault w) (write_fault w) (weather_location w) (fs w) (cwd w) (sent w) (write_calls w) (stdout w)
    (today w) i.

(** ** The monad of Python code *)

Inductive Result (A : Type) : Type :=
  | Ok (a : A)
  | Raise (e : exn).
Arguments Ok {A} a.
Arguments Raise {A} e.

Definition Py (A : Type) : Type := World -> Result A * World.

Definition ret {A} (a : A) : Py A := fun w => (Ok a, w).

Definition raise {A} (e : exn) : Py A := fun w => (Raise e, w).

Definition bind {A B} (m : Py A) (k : A -> Py B) : Py B :=
  fun w =>
    match m w with
    | (Ok a, w') => k a w'
    | (Raise e, w') => (Raise e, w')
    end.

(** [try: body  except cls as e: handler e] *)
Definition try_except {A} (body : Py A) (cls : exn_class) (handler : exn -> Py A) : Py A :=
  fun w =>
    match body w with
    | (Ok a, w') => (Ok a, w')
    | (Raise e, w') => if isinstance e cls then handler e w' else (Raise e, w')
    end.

(** [try: body  except <expression> as e: handler e], where the class is
    given by an expression: Python evaluates it when an exception reaches the
    clause, and not before; if that evaluation raises, its exception replaces
    the one being handled. *)
Definition try_except_expr {A} (body : Py A) (cls : Py exn_class)
    (handler : exn -> Py A) : Py A :=
  fun w =>
    match body w with
    | (Ok a, w') => (Ok a, w')
    | (Raise e, w') =>
        match cls w' with
        | (Ok c, w'') => if isinstance e c then handler e w'' else (Raise e, w'')
        | (Raise e', w'') => (Raise e', w'')
        end
    end.

Declare Scope py_scope.
Delimit Scope py_scope with py.
Notation "x <- m ;; k" := (bind m (fun x => k))
  (at level 100, m at next level, right associativity) : py_scope.
Notation "m ;;; k" := (bind m (fun _ => k))
  (at level 100, right associativity) : py_scope.
Open Scope py_scope.

Definition gets {A} (f : World -> A) : Py A := fun w => (Ok (f w), w).

Definition modify (f : World -> World) : Py unit := fun w => (Ok tt, f w).

(** [print(line)] *)
Definition print (line : string) : Py unit :=
  modify (fun w => set_stdout (stdout w ++ [line]) w).

(** [os.getenv(name)] *)
Definition getenv (name : string) : Py (option string) :=
  gets (fun w => environ w !! name).

(** [for x in l: body x] *)
Fixpoint for_each {A} (l : list A) (body : A -> Py unit) : Py unit :=
  match l with
  | [] => ret tt
  | x :: l' => body x ;;; for_each l' body
  end.

(** ** The [requests] library *)

(** [requests.get(url)]: one outbound call, recorded in [sent]. *)
Definition requests_get (url : string) : Py Response :=
  fun w =>
    let w' := set_sent (sent w ++ [url]) w in
    match remote w (sent w) url with
    | NoResponse e => (Raise e, w')
    | Responded r => (Ok r, w')
    end.

(** [response.raise_for_status()]: an [HTTPError] for 4xx and 5xx. *)
Definition raise_for_status (url : string) (r : Response) : Py unit :=
  if ((400 <=? status_code r) && (status_code r <? 500))%Z then
    raise (mk_exn HTTPError
      (pretty (status_code r) +:+ " Client Error: " +:+ reason r +:+ " for url: " +:+ url))
  else if ((500 <=? status_code r) && (status_code r <? 600))%Z then
    raise (mk_exn HTTPError
      (pretty (status_code r) +:+ " Server Error: " +:+ reason r +:+ " for url: " +:+ url))
  else ret tt.

(** [response.json()]: a body that is not JSON raises requests'
    [JSONDecodeError]; a body that is JSON is decoded, unless the decoder
    itself gives up with another exception, which is passed on as it is. *)
Definition json (r : Response) : Py PyVal :=
  match json_body r with
  | Some v =>
      fun w =>
        match decode_fault w r with
        | Some e => (Raise e, w)
        | None => (Ok v, w)
        end
  | None => raise (mk_exn JSONDecodeError "Expecting value: line 1 column 1 (char 0)")
  end.

(** ** Weather.py *)

Module Weather.

(** [WeatherData.__init__]; [not self.API_KEY] holds for [None] and for
    the empty string. *)
Definition __init__ : Py WeatherData :=
  api_key <- getenv "WEATHER_API_KEY" ;;
  match api_key with
  | None | Some "" =>
      raise (mk_exn ValueError "WEATHER_API_KEY not found in environment variables.")
  | Some key =>
      base_url <- getenv "WEATHER_API_BASE_URL" ;;
      ret (mk_WeatherData key base_url)
  end.

(** The [except requests.RequestException as e] clause of
    [__send_request].  [response] is the local variable of that name:
    [None] while no assignment to it has run. *)
Definition send_request_except (response : option Response) (e : exn) : Py (PyVal * Z) :=
  print ("Error fetching data: " +:+ exc_msg e) ;;;
  match response with
  | Some r => ret (empty_dict, status_code r)
  | None =>
      raise (mk_exn UnboundLocalError
        "cannot access local variable 'response' where it is not associated with a value")
  end.

(** [WeatherData.__send_request] *)
Definition __send_request (self : WeatherData) (request_url : string) : Py (PyVal * Z) :=
  fun w =>
    match requests_get request_url w with
    | (Raise e, w1) =>
        if isinstance e RequestException then send_request_except None e w1
        else (Raise e, w1)
    | (Ok response, w1) =>
        try_except
          (raise_for_status request_url response ;;;
           doc <- json response ;;
           ret (doc, status_code response))
          RequestException
          (send_request_except (Some response)) w1
    end.

(** [WeatherData.get_forecast_history] *)
Definition get_forecast_history (self : WeatherData) (date location : string)
  : Py (PyVal * Z) :=
  let endpoint_url :=
    fmt_opt (BASE_URL self) +:+ "history.json?key=" +:+ API_KEY self
      +:+ "&q=" +:+ location +:+ "&dt=" +:+ date in
  __send_request self endpoint_url.

(** [x in ("yes", "no")] *)
Definition in_yes_no (x : string) : bool :=
  bool_decide (x = "yes") || bool_decide (x = "no").

(** [WeatherData.get_forecast_future] *)
Definition get_forecast_future (self : WeatherData) (location : string) (days : Z)
    (alerts air_quality_data : string) : Py (PyVal * Z) :=
  if (days <? 1)%Z then
    raise (mk_exn ValueError "Invalid value for 'days': must be greater than 0.")
  else
    let alerts_normalized := lower alerts in
    if negb (in_yes_no alerts_normalized) then
      raise (mk_exn ValueError "Invalid value for 'alerts': must be 'yes' or 'no'.")
    else
      let air_quality_data_normalized := lower alerts in
      if negb (in_yes_no air_quality_data_normalized) then
        raise (mk_exn ValueError
          "Invalid value for 'air_quality_data': must be 'yes' or 'no'.")
      else
        let endpoint_url :=
          fmt_opt (BASE_URL self) +:+ "forecast.json?key=" +:+ API_KEY self
            +:+ "&q=" +:+ location +:+ "&days=" +:+ pretty days
            +:+ "&aqi=" +:+ air_quality_data +:+ "&alerts=" +:+ alerts in
        __send_request self endpoint_url.

End Weather.

(** ** Paths and the file system *)

Definition is_sep (c : ascii) : bool := Ascii.eqb c "/".

(** [s.split("/")] *)
Fixpoint split_sep (s : string) : list string :=
  match s with
  | EmptyString => [""]
  | String c s' =>
      if is_sep c then "" :: split_sep s'
      else match split_sep s' with
           | [] => [String c ""]
           | x :: l => String c x :: l
           end
  end.

(** The names a path walks through: empty components and [.] are skipped.
    The component [..] and symbolic links are not interpreted: a path names
    its node faithfully only when it has no [..] component. *)
Definition components (p : string) : list string :=
  filter (fun x => x <> "" /\ x <> ".") (split_sep p).

Definition is_abs (p : string) : bool :=
  match p with
  | String c _ => is_sep c
  | EmptyString => false
  end.

(** The node a path names, from the root, in a process whose working
    directory is [dir]. *)
Definition resolve_in (dir : list string) (p : string) : list string :=
  (if is_abs p then [] else dir) ++ components p.

(** [p[:p.rfind("/") + 1]] *)
Fixpoint upto_last_sep (p : string) : string :=
  match p with
  | EmptyString => ""
  | String c p' =>
      let r := upto_last_sep p' in
      if is_sep c then String c r
      else match r with
           | EmptyString => ""
           | _ => String c r
           end
  end.

(** [s.rstrip("/")] *)
Fixpoint rstrip_sep (s : string) : string :=
  match s with
  | EmptyString => ""
  | String c s' =>
      match rstrip_sep s' with
      | EmptyString => if is_sep c then "" else String c ""
      | r => String c r
      end
  end.

(** [s == "/" * len(s)] *)
Fixpoint all_sep (s : string) : bool :=
  match s with
  | EmptyString => true
  | String c s' => is_sep c && all_sep s'
  end.

(** [os.path.dirname] of [posixpath] *)
Definition dirname (p : string) : string :=
  let head := upto_last_sep p in
  if negb (bool_decide (head = "")) && negb (all_sep head) then rstrip_sep head else head.

Fixpoint ends_with_sep (s : string) : bool :=
  match s with
  | EmptyString => false
  | String c EmptyString => is_sep c
  | String _ s' => ends_with_sep s'
  end.

(** The root is always a directory. *)
Definition lookup_node (f : gmap (list string) node) (p : list string) : option node :=
  match p with
  | [] => Some Dir
  | _ => f !! p
  end.

(** The loop of [os.makedirs(name, exist_ok=True)] over the components
    [todo] below the directory [done]: a directory that exists is kept, one
    that is missing is created, and a file in the way is an error. *)
Fixpoint makedirs_from (name : string) (done todo : list string)
    (f : gmap (list string) node) : Result (gmap (list string) node) :=
  match todo with
  | [] => Ok f
  | c :: todo' =>
      let p := done ++ [c] in
      match lookup_node f p with
      | Some Dir => makedirs_from name p todo' f
      | Some (File _) =>
          match todo' with
          | [] => Raise (mk_exn FileExistsError ("[Errno 17] File exists: " +:+ repr_str name))
          | _ => Raise (mk_exn NotADirectoryError
                   ("[Errno 20] Not a directory: " +:+ repr_str name))
          end
      | None => makedirs_from name p todo' (<[p := Dir]> f)
      end
  end.

(** [os.makedirs(name, exist_ok=True)]; the empty name is refused. *)
Definition makedirs (name : string) : Py unit :=
  fun w =>
    if bool_decide (name = "") then
      (Raise (mk_exn FileNotFoundError "[Errno 2] No such file or directory: ''"), w)
    else
      match makedirs_from name [] (resolve_in (cwd w) name) (fs w) with
      | Ok f => (Ok tt, set_fs f w)
      | Raise e => (Raise e, w)
      end.

(** [open(destination, "w")]: the file is created, or truncated when it
    exists; the result is the node opened.  Permission faults are not part
    of the model. *)
Definition open_w (destination : string) : Py (list string) :=
  fun w =>
    let p := resolve_in (cwd w) destination in
    if bool_decide (destination = "") then
      (Raise (mk_exn FileNotFoundError "[Errno 2] No such file or directory: ''"), w)
    else
      match lookup_node (fs w) (removelast p) with
      | None =>
          (Raise (mk_exn FileNotFoundError
             ("[Errno 2] No such file or directory: " +:+ repr_str destination)), w)
      | Some (File _) =>
          (Raise (mk_exn NotADirectoryError
             ("[Errno 20] Not a directory: " +:+ repr_str destination)), w)
      | Some Dir =>
          match lookup_node (fs w) p with
          | Some Dir =>
              (Raise (mk_exn IsADirectoryError
                 ("[Errno 21] Is a directory: " +:+ repr_str destination)), w)
          | Some (File _) =>
              if ends_with_sep destination then
                (Raise (mk_exn NotADirectoryError
                   ("[Errno 20] Not a directory: " +:+ repr_str destination)), w)
              else (Ok p, set_fs (<[p := File ""]> (fs w)) w)
          | None =>
              if ends_with_sep destination then
                (Raise (mk_exn IsADirectoryError
                   ("[Errno 21] Is a directory: " +:+ repr_str destination)), w)
              else (Ok p, set_fs (<[p := File ""]> (fs w)) w)
          end
      end.

(** [file.write(data)] and the close at the end of the [with] block, for
    the file opened at [p] under the name [destination]. *)
Definition file_write (p : list string) (destination data : string) : Py unit :=
  fun w =>
    match write_fault w destination data with
    | None => (Ok tt, set_fs (<[p := File data]> (fs w)) w)
    | Some (CannotEncode msg) => (Raise (mk_exn UnicodeEncodeError msg), w)
    | Some (DeviceError msg written) =>
        (Raise (mk_exn OSError msg), set_fs (<[p := File written]> (fs w)) w)
    end.

(** [with open(destination, "w") as file: file.write(data)] *)
Definition open_w_write (destination data : string) : Py unit :=
  file <- open_w destination ;;
  file_write file destination data.

(** ** Writer.py *)

(** The concrete subclasses of the abstract class [Writer]. *)
Inductive Writer : Type :=
  | LocalWriter
  | AzureBlobWriter (connection_string : option string).

(** What a variable holding "a writer" may be bound to: [get_writer] hands
    out writers and, on one branch, an exception instance. *)
Inductive PyObj : Type :=
  | WriterObj (wr : Writer)
  | ExcObj (e : exn).

Module LocalWriter_.

(** [LocalWriter.write] *)
Definition write (data destination : string) : Py PyVal :=
  makedirs (dirname destination) ;;;
  try_except
    (open_w_write destination data)
    OSError
    (fun e => raise (mk_exn OSError
       ("Failed to write to " +:+ destination +:+ ": " +:+ exc_msg e))) ;;;
  print ("Data written to " +:+ destination) ;;;
  ret (PyBool true).

End LocalWriter_.

Module AzureBlobWriter_.

(** [AzureBlobWriter.write]: the body is [pass]. *)
Definition write (data destination : string) : Py PyVal := ret PyNone.

End AzureBlobWriter_.

(** The call [writer.write(data, destination)]: the attribute is looked up
    on the object, and the call is recorded once the method is found. *)
Definition call_write (writer : PyObj) (data destination : string) : Py PyVal :=
  match writer with
  | WriterObj wr =>
      modify (fun w => set_write_calls (write_calls w ++ [(data, destination)]) w) ;;;
      match wr with
      | LocalWriter => LocalWriter_.write data destination
      | AzureBlobWriter _ => AzureBlobWriter_.write data destination
      end
  | ExcObj e =>
      raise (mk_exn AttributeError "'ModuleNotFoundError' object has no attribute 'write'")
  end.

(** ** WriterFactory.py *)

(** [get_writer(writer_type, **auth)] *)
Definition get_writer (writer_type : string) (auth : gmap string string) : Py PyObj :=
  if bool_decide (writer_type = "local") then
    ret (WriterObj LocalWriter)
  else if bool_decide (writer_type = "azure") then
    ret (ExcObj (mk_exn ModuleNotFoundError "AzureBlobWriter is not implemented yet."))
  else
    raise (mk_exn ValueError ("Unknown writer type: " +:+ writer_type)).

(** ** DuckDB *)

(** [duckdb.connect(database=path)]: the keyword takes a path, and [None],
    which [os.getenv] returns for a variable that is not set, is refused.
    Opening the database at a path is taken to succeed; the file that holds
    the database is not among the files of [fs]. *)
Definition duckdb_connect (database : option string) : Py unit :=
  match database with
  | Some _ => ret tt
  | None => raise (mk_exn TypeError "connect(): incompatible function arguments.")
  end.

(** The attribute [duckdb.DuckDBException]: the module has no such name. *)
Definition duckdb_DuckDBException : Py exn_class :=
  raise (mk_exn AttributeError "module 'duckdb' has no attribute 'DuckDBException'").

(** The statements of [WeatherPipeline], by their text:
    - [CREATE TABLE IF NOT EXISTS weather_location (postcode VARCHAR UNIQUE NOT NULL)],
    - [INSERT INTO weather_location (postcode) VALUES (?)],
    - [DELETE FROM weather_location WHERE postcode = ?],
    - [SELECT postcode FROM weather_location]. *)
Inductive statement : Type :=
  | CREATE_TABLE_IF_NOT_EXISTS
  | INSERT_INTO_VALUES
  | DELETE_FROM_WHERE
  | SELECT_postcode.

Definition sql_create_table : Py unit :=
  modify (fun w =>
    match weather_location w with
    | Some _ => w
    | None => set_weather_location (Some []) w
    end).

Definition no_table {A} : Py A :=
  raise (mk_exn CatalogException
    "Catalog Error: Table with name weather_location does not exist!").

(** The rows of the table, as [fetchall()] gives them. *)
Definition sql_select_all : Py (list string) :=
  fun w =>
    match weather_location w with
    | None => no_table w
    | Some rows => (Ok rows, w)
    end.

(** The engine on a statement that comes without values: one that has a
    parameter [?] is refused. *)
Definition run_statement (query : statement) : Py (list string) :=
  match query with
  | CREATE_TABLE_IF_NOT_EXISTS => sql_create_table ;;; ret []
  | SELECT_postcode => sql_select_all
  | INSERT_INTO_VALUES | DELETE_FROM_WHERE =>
      raise (mk_exn InvalidInputException
        "Invalid Input Error: Values were not provided for the following prepared statement parameters: 1")
  end.

(** [self.con.sql(query, *args)], with [fetchall()] for a query: the query is
    the only positional parameter of [sql] (its [alias] and [params] are
    keyword-only), so a call with a second positional argument raises
    [TypeError] and no statement runs. *)
Definition con_sql (query : statement) (args : list string) : Py (list string) :=
  match args with
  | [] => run_statement query
  | _ :: _ => raise (mk_exn TypeError "sql(): incompatible function arguments.")
  end.


(** ** WeatherPipeline.py *)

Module Pipeline.

(** [WeatherPipeline.__init__] *)
Definition __init__ : Py WeatherPipeline :=
  database <- getenv "DUCK_DB_PATH" ;;
  duckdb_connect database ;;;
  con_sql CREATE_TABLE_IF_NOT_EXISTS [] ;;;
  wd <- Weather.__init__ ;;
  ret (mk_WeatherPipeline wd).

(** [SingletonMeta.__call__], for the call [WeatherPipeline()] *)
Definition new : Py WeatherPipeline :=
  existing <- gets instances ;;
  match existing with
  | Some instance => ret instance
  | None =>
      instance <- __init__ ;;
      modify (set_instances (Some instance)) ;;;
      ret instance
  end.

(** [WeatherPipeline.add_location] *)
Definition add_location (self : WeatherPipeline) (postcode : string) : Py unit :=
  try_except_expr
    (con_sql INSERT_INTO_VALUES [postcode] ;;; ret tt)
    duckdb_DuckDBException
    (fun e => raise (mk_exn Exception_
       ("Failed to add location " +:+ postcode +:+ ": " +:+ exc_msg e))) ;;;
  print ("Location " +:+ postcode +:+ " added successfully.").

(** [WeatherPipeline.remove_location] *)
Definition remove_location (self : WeatherPipeline) (postcode : string) : Py unit :=
  try_except_expr
    (con_sql DELETE_FROM_WHERE [postcode] ;;; ret tt)
    duckdb_DuckDBException
    (fun e => raise (mk_exn Exception_
       ("Failed to remove location " +:+ postcode +:+ ": " +:+ exc_msg e))) ;;;
  print ("Location " +:+ postcode +:+ " removed successfully.").

(** How [print] shows the rows [fetchall()] returns: a list of 1-tuples. *)
Definition repr_rows (rows : list string) : string :=
  "[" +:+ join ", " (map (fun r => "(" +:+ repr_str r +:+ ",)") rows) +:+ "]".

(** [WeatherPipeline.get_locations] *)
Definition get_locations (self : WeatherPipeline) : Py (list string) :=
  try_except_expr
    (forecast_locations <- con_sql SELECT_postcode [] ;;
     print ("Locations retrieved: len(" +:+ repr_rows forecast_locations +:+ ")") ;;;
     ret forecast_locations)
    duckdb_DuckDBException
    (fun e => raise (mk_exn Exception_ ("Failed to retrieve locations: " +:+ exc_msg e))).

(** [WeatherPipeline.get_and_write_forecast_history] *)
Definition get_and_write_forecast_history (self : WeatherPipeline)
    (date location : string) (writer : PyObj) (destination : string) : Py unit :=
  fetched <- Weather.get_forecast_history (weather_data self) date location ;;
  let '(result, status_code) := fetched in
  if negb (status_code =? 200)%Z then
    raise (mk_exn Exception_ ("Failed to fetch data: " +:+ py_str result))
  else
    call_write writer (py_str result) destination ;;;
    print ("Data written to " +:+ destination +:+ " successfully.").

(** The loop of the script body over the locations. *)
Definition run_locations (weather_pipeline : WeatherPipeline) (writer : PyObj)
    (today : string) (locations : list string) : Py unit :=
  for_each locations (fun location =>
    get_and_write_forecast_history weather_pipeline today location writer
      ("./output/" +:+ location +:+ "/" +:+ today +:+ ".json")).

(** The script body, under [if __name__ == "__main__"].  [load_dotenv()]
    has run when [environ] is read. *)
Definition main : Py unit :=
  weather_pipeline <- new ;;
  writer <- get_writer "local" ∅ ;;
  locations <- get_locations weather_pipeline ;;
  today <- gets today ;;
  run_locations weather_pipeline writer today locations ;;;
  print "Weather data pipeline executed successfully.".

End Pipeline.

(** ** Example worlds *)

Module Examples.

Definition env_full : gmap string string :=
  <["WEATHER_API_KEY" := "K"]>
    (<["WEATHER_API_BASE_URL" := "http://api/"]> (<["DUCK_DB_PATH" := "weather.duckdb"]> ∅)).



Definition payload : PyVal := PyDict [("temp_c", PyInt 21)].

Definition respond (status : Z) (why : string) (body : option PyVal) : GetOutcome :=
  Responded (mk_response status why body).

(** A provider that gives every request the same answer. *)
Definition always (o : GetOutcome) : list string -> string -> GetOutcome :=
  fun _ _ => o.

(** A provider that answers 200 with [payload], except for location B,
    which gets a 500. *)
Definition b_fails : list string -> string -> GetOutcome :=
  fun _ url =>
    if bool_decide (url = "http://api/history.json?key=K&q=B&dt=2024-01-01")
    then respond 500 "Internal Server Error" (Some empty_dict)
    else respond 200 "OK" (Some payload).

(** A fresh process: nothing sent, written or printed, no instance yet; no
    decoding or writing fault. *)
Definition world (env : gmap string string) (provider : list string -> string -> GetOutcome)
    (table : option (list string)) (files : gmap (list string) node) : World :=
  mk_World env provider (fun _ => None) (fun _ _ => None) table files [] [] [] []
    "2024-01-01" None.

(** A file system where the destination of the example already exists. *)
Definition old_files : gmap (list string) node :=
  <[["tmp"; "out"; "10001"; "2024-01-01.json"] := File "old"]>
    (<[["tmp"; "out"; "10001"] := Dir]> (<[["tmp"; "out"] := Dir]> (<[["tmp"] := Dir]> ∅))).


Definition client : WeatherData := mk_WeatherData "K" (Some "http://api/").

Definition pipeline : WeatherPipeline := mk_WeatherPipeline client.

End Examples.

(** * Properties *)

(** ** The monad *)

Lemma bind_ok {A B} (m : Py A) (k : A -> Py B) w a w' :
  m w = (Ok a, w') -> bind m k w = k a w'.
Proof. intros H. unfold bind. by rewrite H. Qed.

Lemma bind_raise {A B} (m : Py A) (k : A -> Py B) w e w' :
  m w = (Raise e, w') -> bind m k w = (Raise e, w').
Proof. intros H. unfold bind. by rewrite H. Qed.

Lemma try_except_ok {A} (body : Py A) cls handler w a w' :
  body w = (Ok a, w') -> try_except body cls handler w = (Ok a, w').
Proof. intros H. unfold try_except. by rewrite H. Qed.

Lemma try_except_caught {A} (body : Py A) cls handler w e w' :
  body w = (Raise e, w') -> isinstance e cls = true ->
  try_except body cls handler w = handler e w'.
Proof. intros H Hi. unfold try_except. by rewrite H, Hi. Qed.

(** A loop stops at the first iteration that raises. *)
Lemma for_each_app_raise {A} (body : A -> Py unit) l1 x l2 w w1 e w2 :
  for_each l1 body w = (Ok tt, w1) ->
  body x w1 = (Raise e, w2) ->
  for_each (l1 ++ x :: l2) body w = (Raise e, w2).
Proof.
  revert w. induction l1 as [|y l1 IH]; intros w Hl1 Hx; simpl in *.
  - unfold ret in Hl1. injection Hl1 as <-. by apply bind_raise.
  - unfold bind in *. destruct (body y w) as [[[]|e'] w'] eqn:Hy; [|done].
    by apply IH.
Qed.

(** ** The client: [__send_request] *)

Section send_request.
Context (self : WeatherData) (url : string) (w : World).

(** Every call sends exactly one request, whatever comes back. *)
Lemma send_request_sent :
  sent (snd (Weather.__send_request self url w)) = sent w ++ [url].
Proof.
  unfold Weather.__send_request, requests_get.
  destruct (remote w (sent w) url) as [e|r].
  - destruct (isinstance e RequestException); [|done].
    unfold Weather.send_request_except, bind, print, modify; simpl. done.
  - unfold try_except, bind, raise_for_status, json, Weather.send_request_except,
      print, modify, raise, ret.
    repeat (case_match; simplify_eq; simpl in *; try done).
Qed.

(** It touches neither the writers, the files nor the table. *)
Lemma send_request_frame :
  let w' := snd (Weather.__send_request self url w) in
  write_calls w' = write_calls w /\ fs w' = fs w /\ cwd w' = cwd w /\
  weather_location w' = weather_location w.
Proof.
  unfold Weather.__send_request, requests_get.
  destruct (remote w (sent w) url) as [e|r].
  - destruct (isinstance e RequestException); [|done].
    unfold Weather.send_request_except, bind, print, modify; simpl. done.
  - unfold try_except, bind, raise_for_status, json, Weather.send_request_except,
      print, modify, raise, ret.
    repeat (case_match; simplify_eq; simpl in *; try done).
Qed.

(** A 4xx or 5xx response is handled: the result is [({}, status)]. *)
Lemma send_request_http_error r :
  remote w (sent w) url = Responded r ->
  (400 <= status_code r < 600)%Z ->
  fst (Weather.__send_request self url w) = Ok (empty_dict, status_code r).
Proof.
  intros Hr Hs. unfold Weather.__send_request, requests_get. rewrite Hr.
  unfold try_except, bind, raise_for_status.
  destruct ((400 <=? status_code r) && (status_code r <? 500))%Z eqn:H4; [done|].
  destruct ((500 <=? status_code r) && (status_code r <? 600))%Z eqn:H5; [done|].
  exfalso. apply andb_false_iff in H4, H5. lia.
Qed.

(** A body that is not JSON is handled the same way. *)
Lemma send_request_bad_body r :
  remote w (sent w) url = Responded r ->
  json_body r = None ->
  fst (Weather.__send_request self url w) = Ok (empty_dict, status_code r).
Proof.
  intros Hr Hb. unfold Weather.__send_request, requests_get. rewrite Hr.
  unfold try_except, bind, raise_for_status, json, raise, ret. rewrite Hb.
  repeat (case_match; simplify_eq; simpl in *; try done).
Qed.

(** A response outside 4xx and 5xx with a JSON body that decodes is
    returned as it is. *)
Lemma send_request_ok r doc :
  remote w (sent w) url = Responded r ->
  json_body r = Some doc ->
  ¬ (400 <= status_code r < 600)%Z ->
  decode_fault w r = None ->
  fst (Weather.__send_request self url w) = Ok (doc, status_code r).
Proof.
  intros Hr Hb Hs Hd. unfold Weather.__send_request, requests_get. rewrite Hr.
  unfold try_except, bind, raise_for_status, json. rewrite Hb.
  destruct ((400 <=? status_code r) && (status_code r <? 500))%Z eqn:H4;
    [apply andb_true_iff in H4; lia|].
  destruct ((500 <=? status_code r) && (status_code r <? 600))%Z eqn:H5;
    [apply andb_true_iff in H5; lia|].
  simpl. by rewrite Hd.
Qed.

(** When the decoder gives up with an exception that is not a
    [RequestException], that exception leaves [__send_request]. *)
Lemma send_request_decode_fault r doc e :
  remote w (sent w) url = Responded r ->
  json_body r = Some doc ->
  ¬ (400 <= status_code r < 600)%Z ->
  decode_fault w r = Some e ->
  isinstance e RequestException = false ->
  fst (Weather.__send_request self url w) = Raise e.
Proof.
  intros Hr Hb Hs Hd Hi. unfold Weather.__send_request, requests_get. rewrite Hr.
  unfold try_except, bind, raise_for_status, json. rewrite Hb.
  destruct ((400 <=? status_code r) && (status_code r <? 500))%Z eqn:H4;
    [apply andb_true_iff in H4; lia|].
  destruct ((500 <=? status_code r) && (status_code r <? 600))%Z eqn:H5;
    [apply andb_true_iff in H5; lia|].
  simpl. by rewrite Hd, Hi.
Qed.

End send_request.

(** ** The client: the two fetch operations *)

Lemma get_forecast_future_valid self location days alerts aq :
  (1 <= days)%Z ->
  Weather.in_yes_no (lower alerts) = true ->
  Weather.get_forecast_future self location days alerts aq =
  Weather.__send_request self
    (fmt_opt (BASE_URL self) +:+ "forecast.json?key=" +:+ API_KEY self
       +:+ "&q=" +:+ location +:+ "&days=" +:+ pretty days
       +:+ "&aqi=" +:+ aq +:+ "&alerts=" +:+ alerts).
Proof.
  intros Hd Ha. unfold Weather.get_forecast_future.
  destruct (days <? 1)%Z eqn:Hlt; [lia|]. by rewrite Ha.
Qed.

(** [days < 1] is refused before anything is sent. *)
Lemma get_forecast_future_days self location days alerts aq w :
  (days < 1)%Z ->
  Weather.get_forecast_future self location days alerts aq w =
  (Raise (mk_exn ValueError "Invalid value for 'days': must be greater than 0."), w).
Proof.
  intros Hd. unfold Weather.get_forecast_future.
  destruct (days <? 1)%Z eqn:Hlt; [done|lia].
Qed.

(** So is an [alerts] flag that is neither yes nor no. *)
Lemma get_forecast_future_alerts self location days alerts aq w :
  (1 <= days)%Z ->
  Weather.in_yes_no (lower alerts) = false ->
  Weather.get_forecast_future self location days alerts aq w =
  (Raise (mk_exn ValueError "Invalid value for 'alerts': must be 'yes' or 'no'."), w).
Proof.
  intros Hd Ha. unfold Weather.get_forecast_future.
  destruct (days <? 1)%Z eqn:Hlt; [lia|]. by rewrite Ha.
Qed.



(** C4: when [requests.get] raises a [RequestException] without a response
    (connection error, timeout), the error branch of [__send_request] reads
    the unbound local [response]: the call raises [UnboundLocalError]
    instead of returning [({}, 0)], and so does [get_forecast_history]. *)
Theorem no_response_raises_UnboundLocalError (self : WeatherData) (w : World) (e : exn) :
  isinstance e RequestException = true ->
  (forall url, remote w (sent w) url = NoResponse e) ->
  (forall url, exists msg,
     fst (Weather.__send_request self url w) = Raise (mk_exn UnboundLocalError msg)) /\
  (forall date location, exists msg,
     fst (Weather.get_forecast_history self date location w)
     = Raise (mk_exn UnboundLocalError msg)).
Proof.
  intros Hi Hr.
  assert (forall url, exists msg,
    fst (Weather.__send_request self url w) = Raise (mk_exn UnboundLocalError msg)) as H.
  { intros url. unfold Weather.__send_request, requests_get.
    rewrite Hr, Hi. simpl. eauto. }
  split; [done|]. intros date location. apply H.
Qed.

Lemma no_response_raises_UnboundLocalError_witness :
  let w := Examples.world Examples.env_full
             (Examples.always (NoResponse (mk_exn ConnectionError_ "Connection refused")))
             (Some []) ∅ in
  (forall url, exists msg,
     fst (Weather.__send_request Examples.client url w)
     = Raise (mk_exn UnboundLocalError msg)) /\
  (forall date location, exists msg,
     fst (Weather.get_forecast_history Examples.client date location w)
     = Raise (mk_exn UnboundLocalError msg)).
Proof.
  intros w.
  apply (no_response_raises_UnboundLocalError Examples.client w
           (mk_exn ConnectionError_ "Connection refused")).
  - reflexivity.
  - intros url. reflexivity.
Defined.

(** C2: [get_forecast_future] never looks at [air_quality_data] when it
    validates: with [days >= 1] and a recognised [alerts] flag, any
    [air_quality_data] at all (say maybe) passes, no [ValueError] is raised
    and the request is sent with that value in the URL. *)
Theorem air_quality_flag_is_not_validated (self : WeatherData) (location : string)
    (days : Z) (alerts aq : string) (w : World) :
  (1 <= days)%Z ->
  Weather.in_yes_no (lower alerts) = true ->
  Weather.in_yes_no (lower aq) = false ->
  Weather.get_forecast_future self location days alerts aq w =
  Weather.__send_request self
    (fmt_opt (BASE_URL self) +:+ "forecast.json?key=" +:+ API_KEY self
       +:+ "&q=" +:+ location +:+ "&days=" +:+ pretty days
       +:+ "&aqi=" +:+ aq +:+ "&alerts=" +:+ alerts) w /\
  sent (snd (Weather.get_forecast_future self location days alerts aq w)) <> sent w.
Proof.
  intros Hd Ha _. rewrite get_forecast_future_valid by done. split; [done|].
  rewrite send_request_sent. intros H.
  apply (f_equal length) in H. rewrite length_app in H. simpl in H. lia.
Qed.

Lemma air_quality_flag_is_not_validated_witness :
  let w := Examples.world Examples.env_full
             (Examples.always (Examples.respond 200 "OK" (Some Examples.payload)))
             (Some []) ∅ in
  Weather.get_forecast_future Examples.client "London" 1 "yes" "maybe" w =
  Weather.__send_request Examples.client
    "http://api/forecast.json?key=K&q=London&days=1&aqi=maybe&alerts=yes" w /\
  sent (snd (Weather.get_forecast_future Examples.client "London" 1 "yes" "maybe" w))
  <> sent w.
Proof.
  intros w.
  apply (air_quality_flag_is_not_validated Examples.client "London" 1 "yes" "maybe" w).
  - lia.
  - reflexivity.
  - reflexivity.
Defined.

(** ** The factory *)

Lemma get_writer_local auth w :
  get_writer "local" auth w = (Ok (WriterObj LocalWriter), w).
Proof. reflexivity. Qed.

(** An identifier that is neither local nor azure raises [ValueError], and
    no object is built. *)
Lemma get_writer_unknown writer_type auth w :
  writer_type <> "local" -> writer_type <> "azure" ->
  get_writer writer_type auth w =
  (Raise (mk_exn ValueError ("Unknown writer type: " +:+ writer_type)), w).
Proof.
  intros H1 H2. unfold get_writer.
  rewrite !bool_decide_eq_false_2 by done. reflexivity.
Qed.

(** C5: for the recognised but unimplemented identifier azure, [get_writer]
    does not raise: it returns, as an ordinary result, an instance of
    [ModuleNotFoundError], so the caller receives a value where it expects a
    writer, while an unknown identifier such as bogus raises [ValueError]. *)
Theorem get_writer_azure_returns_an_exception_object (auth : gmap string string)
    (w : World) :
  get_writer "azure" auth w =
    (Ok (ExcObj (mk_exn ModuleNotFoundError "AzureBlobWriter is not implemented yet.")), w) /\
  get_writer "bogus" auth w =
    (Raise (mk_exn ValueError "Unknown writer type: bogus"), w).
Proof. split; reflexivity. Qed.

(** ** Construction and configuration *)

Lemma WeatherData_init_no_key w :
  environ w !! "WEATHER_API_KEY" = None \/ environ w !! "WEATHER_API_KEY" = Some "" ->
  Weather.__init__ w =
  (Raise (mk_exn ValueError "WEATHER_API_KEY not found in environment variables."), w).
Proof.
  intros H. unfold Weather.__init__, bind, getenv, gets.
  destruct H as [-> | ->]; reflexivity.
Qed.

Lemma WeatherData_init_key w key :
  environ w !! "WEATHER_API_KEY" = Some key -> key <> "" ->
  Weather.__init__ w =
  (Ok (mk_WeatherData key (environ w !! "WEATHER_API_BASE_URL")), w).
Proof.
  intros H Hne. unfold Weather.__init__, bind, getenv, gets. rewrite H.
  destruct key; [done|]. reflexivity.
Qed.

(** [WeatherPipeline.__init__] without a database path: the connection is
    refused, and nothing else has happened. *)
Lemma pipeline_init_no_database w :
  environ w !! "DUCK_DB_PATH" = None ->
  Pipeline.__init__ w =
  (Raise (mk_exn TypeError "connect(): incompatible function arguments."), w).
Proof.
  intros H. unfold Pipeline.__init__, bind, getenv, gets. by rewrite H.
Qed.

(** [WeatherPipeline.__init__] with a database path: the table, then the
    client. *)
Lemma pipeline_init_database w path :
  environ w !! "DUCK_DB_PATH" = Some path ->
  let w0 := match weather_location w with
            | Some _ => w
            | None => set_weather_location (Some []) w
            end in
  Pipeline.__init__ w =
  match Weather.__init__ w0 with
  | (Ok wd, w1) => (Ok (mk_WeatherPipeline wd), w1)
  | (Raise e, w1) => (Raise e, w1)
  end.
Proof.
  intros H w0. unfold Pipeline.__init__, bind, getenv, gets. rewrite H. simpl.
  fold w0. by destruct (Weather.__init__ w0) as [[wd|e] w1].
Qed.

(** The first call of [WeatherPipeline()] in a process. *)
Lemma pipeline_new_no_database w :
  instances w = None ->
  environ w !! "DUCK_DB_PATH" = None ->
  Pipeline.new w =
  (Raise (mk_exn TypeError "connect(): incompatible function arguments."), w).
Proof.
  intros Hi H. unfold Pipeline.new, bind at 1, gets. rewrite Hi.
  unfold bind. by rewrite (pipeline_init_no_database w H).
Qed.

Lemma pipeline_new_fresh w path :
  instances w = None ->
  environ w !! "DUCK_DB_PATH" = Some path ->
  let w0 := match weather_location w with
            | Some _ => w
            | None => set_weather_location (Some []) w
            end in
  Pipeline.new w =
  match Weather.__init__ w0 with
  | (Ok wd, w1) =>
      (Ok (mk_WeatherPipeline wd), set_instances (Some (mk_WeatherPipeline wd)) w1)
  | (Raise e, w1) => (Raise e, w1)
  end.
Proof.
  intros Hi H w0. unfold Pipeline.new, bind at 1, gets. rewrite Hi.
  unfold bind. rewrite (pipeline_init_database w path H). fold w0.
  by destruct (Weather.__init__ w0) as [[wd|e] w1].
Qed.




(** ** The writers *)

Lemma makedirs_only_fs name w :
  let w' := snd (makedirs name w) in
  sent w' = sent w /\ write_calls w' = write_calls w /\ cwd w' = cwd w /\
  weather_location w' = weather_location w.
Proof. unfold makedirs. repeat case_match; done. Qed.

Lemma open_w_write_only_fs destination data w :
  let w' := snd (open_w_write destination data w) in
  sent w' = sent w /\ write_calls w' = write_calls w /\ cwd w' = cwd w /\
  weather_location w' = weather_location w.
Proof.
  unfold open_w_write, bind, open_w, file_write.
  repeat (case_match; simplify_eq; try done).
Qed.

Lemma LocalWriter_write_frame data destination w :
  let w' := snd (LocalWriter_.write data destination w) in
  sent w' = sent w /\ write_calls w' = write_calls w /\ cwd w' = cwd w /\
  weather_location w' = weather_location w.
Proof.
  unfold LocalWriter_.write, bind, try_except.
  pose proof (makedirs_only_fs (dirname destination) w) as Hm.
  destruct (makedirs (dirname destination) w) as [[[]|e] w1]; [|done].
  pose proof (open_w_write_only_fs destination data w1) as Ho.
  destruct (open_w_write destination data w1) as [[[]|e] w2]; simpl in *.
  - intuition congruence.
  - destruct (isinstance e OSError); simpl; intuition congruence.
Qed.

(** A call of [write] on a writer is recorded exactly once, and sends
    nothing. *)
Lemma call_write_recorded wr data destination w :
  let w' := snd (call_write (WriterObj wr) data destination w) in
  write_calls w' = write_calls w ++ [(data, destination)] /\ sent w' = sent w /\
  weather_location w' = weather_location w.
Proof.
  unfold call_write, bind, modify. destruct wr as [|cs]; [|done].
  match goal with
  | |- context [LocalWriter_.write data destination ?w0] =>
      pose proof (LocalWriter_write_frame data destination w0) as H
  end.
  simpl in *. destruct H as (-> & -> & _ & ->). done.
Qed.

(** An exception instance has no [write]: nothing is recorded or changed. *)
Lemma call_write_exception_object e data destination w :
  call_write (ExcObj e) data destination w =
  (Raise (mk_exn AttributeError "'ModuleNotFoundError' object has no attribute 'write'"), w).
Proof. reflexivity. Qed.

(** ** The pipeline: one location *)

Section one_location.
Context (self : WeatherPipeline) (date location : string) (writer : PyObj)
  (destination : string) (w : World).

(** Each attempt sends exactly one request, whatever its outcome. *)
Lemma get_and_write_sent :
  sent (snd (Pipeline.get_and_write_forecast_history self date location writer
               destination w))
  = sent w ++ [fmt_opt (BASE_URL (weather_data self)) +:+ "history.json?key="
                 +:+ API_KEY (weather_data self) +:+ "&q=" +:+ location
                 +:+ "&dt=" +:+ date].
Proof.
  unfold Pipeline.get_and_write_forecast_history, Weather.get_forecast_history,
    bind at 1.
  match goal with
  | |- context [Weather.__send_request ?s ?u w] =>
      pose proof (send_request_sent s u w) as Hs;
      destruct (Weather.__send_request s u w) as [[[result status]|e] w1]
  end; simpl in Hs; [|done].
  destruct (negb (status =? 200)%Z); [done|].
  unfold bind, print, modify.
  destruct writer as [wr|e].
  - pose proof (call_write_recorded wr (py_str result) destination w1) as (_ & Hc & _).
    destruct (call_write (WriterObj wr) (py_str result) destination w1) as [[v|e] w2];
      simpl in *; congruence.
  - simpl. done.
Qed.

(** When the fetch returns a status other than 200, the call raises and the
    world is the one the fetch left: no write. *)
Lemma get_and_write_not_200 result status w1 :
  Weather.get_forecast_history (weather_data self) date location w
  = (Ok (result, status), w1) ->
  status <> 200%Z ->
  Pipeline.get_and_write_forecast_history self date location writer destination w
  = (Raise (mk_exn Exception_ ("Failed to fetch data: " +:+ py_str result)), w1).
Proof.
  intros Hf Hs. unfold Pipeline.get_and_write_forecast_history.
  rewrite (bind_ok _ _ _ _ _ Hf).
  destruct (status =? 200)%Z eqn:E; [lia|]. done.
Qed.

(** When the fetch returns status 200, the call goes on to the write. *)
Lemma get_and_write_200 result w1 :
  Weather.get_forecast_history (weather_data self) date location w
  = (Ok (result, 200%Z), w1) ->
  Pipeline.get_and_write_forecast_history self date location writer destination w
  = (call_write writer (py_str result) destination ;;;
     print ("Data written to " +:+ destination +:+ " successfully.")) w1.
Proof.
  intros Hf. unfold Pipeline.get_and_write_forecast_history.
  by rewrite (bind_ok _ _ _ _ _ Hf).
Qed.

End one_location.

(** C3, as stated, fails inside the 2xx range: a fetch that returns status
    201 with a document is treated as failed, and nothing is written. *)
Lemma status_201_is_not_written :
  let w := Examples.world Examples.env_full
             (Examples.always (Examples.respond 201 "Created" (Some Examples.payload)))
             (Some []) ∅ in
  let out := Pipeline.get_and_write_forecast_history Examples.pipeline "2024-01-01"
               "10001" (WriterObj LocalWriter) "/tmp/out/10001/2024-01-01.json" w in
  fst (Weather.get_forecast_history Examples.client "2024-01-01" "10001" w)
    = Ok (Examples.payload, 201%Z) /\
  (200 <= 201 <= 299)%Z /\
  fst out = Raise (mk_exn Exception_ "Failed to fetch data: {'temp_c': 21}") /\
  write_calls (snd out) = [] /\
  fs (snd out) = ∅.
Proof. vm_compute. repeat split; discriminate. Qed.

(** C3, amended: the test is [status_code != 200].  For every writer, when
    the fetch returns a status other than 200 the call raises [Exception]
    with the text of the result, and [write] is not called (the world is the
    one the fetch left); when the fetch returns 200, [write] is called
    exactly once, with [str(result)] and the destination. *)
Theorem write_happens_exactly_for_status_200 (self : WeatherPipeline)
    (date location : string) (wr : Writer) (destination : string) (w w1 : World)
    (result : PyVal) (status : Z) :
  Weather.get_forecast_history (weather_data self) date location w
  = (Ok (result, status), w1) ->
  let out := Pipeline.get_and_write_forecast_history self date location (WriterObj wr)
               destination w in
  (status <> 200%Z ->
   out = (Raise (mk_exn Exception_ ("Failed to fetch data: " +:+ py_str result)), w1) /\
   write_calls (snd out) = write_calls w /\ fs (snd out) = fs w) /\
  (status = 200%Z ->
   write_calls (snd out) = write_calls w ++ [(py_str result, destination)]).
Proof.
  intros Hf out.
  pose proof (send_request_frame (weather_data self)
    (fmt_opt (BASE_URL (weather_data self)) +:+ "history.json?key="
       +:+ API_KEY (weather_data self) +:+ "&q=" +:+ location +:+ "&dt=" +:+ date) w)
    as Hfr.
  unfold Weather.get_forecast_history in Hf. rewrite Hf in Hfr. simpl in Hfr.
  destruct Hfr as (Hwc & Hfs & _). split.
  - intros Hs. subst out.
    rewrite (get_and_write_not_200 self date location _ destination w result status w1)
      by done.
    simpl. done.
  - intros ->. subst out.
    rewrite (get_and_write_200 self date location _ destination w result w1) by done.
    pose proof (call_write_recorded wr (py_str result) destination w1) as (Hc & _).
    unfold bind, print, modify.
    destruct (call_write (WriterObj wr) (py_str result) destination w1) as [[v|e] w2];
      simpl in *; congruence.
Qed.

Lemma write_happens_exactly_for_status_200_witness :
  let w := Examples.world Examples.env_full
             (Examples.always (Examples.respond 500 "Internal Server Error"
                                 (Some empty_dict)))
             (Some []) ∅ in
  let out := Pipeline.get_and_write_forecast_history Examples.pipeline "2024-01-01"
               "10001" (WriterObj LocalWriter) "/tmp/out/10001/2024-01-01.json" w in
  fst out = Raise (mk_exn Exception_ "Failed to fetch data: {}") /\
  write_calls (snd out) = [] /\ fs (snd out) = ∅.
Proof.
  intros w out.
  destruct (write_happens_exactly_for_status_200 Examples.pipeline "2024-01-01" "10001"
              LocalWriter "/tmp/out/10001/2024-01-01.json" w
              (snd (Weather.get_forecast_history Examples.client "2024-01-01" "10001" w))
              empty_dict 500%Z) as [H _].
  - reflexivity.
  - destruct H as (H1 & H2 & H3); [discriminate|].
    split; [|split].
    + subst out. rewrite H1. reflexivity.
    + exact H2.
    + exact H3.
Defined.

(** ** The pipeline: the run over the locations *)

(** An attempt hands at most one text to a writer, for its destination. *)
Lemma get_and_write_write_calls self date location writer destination w :
  let w' := snd (Pipeline.get_and_write_forecast_history self date location writer
                   destination w) in
  write_calls w' = write_calls w \/
  exists data, write_calls w' = write_calls w ++ [(data, destination)].
Proof.
  pose proof (send_request_frame (weather_data self)
    (fmt_opt (BASE_URL (weather_data self)) +:+ "history.json?key="
       +:+ API_KEY (weather_data self) +:+ "&q=" +:+ location +:+ "&dt=" +:+ date) w)
    as Hfr.
  cbv zeta.
  destruct (Pipeline.get_and_write_forecast_history self date location writer
              destination w) as [r w'] eqn:H.
  simpl.
  unfold Pipeline.get_and_write_forecast_history, Weather.get_forecast_history,
    bind at 1 in H.
  destruct (Weather.__send_request _ _ w) as [[[result status]|e] w1];
    simpl in Hfr; destruct Hfr as (Hwc & _); [|simplify_eq; by left].
  destruct (negb (status =? 200)%Z); [unfold raise in H; simplify_eq; by left|].
  destruct writer as [wr|e];
    [|unfold bind, call_write, raise in H; simplify_eq; by left].
  right. exists (py_str result).
  pose proof (call_write_recorded wr (py_str result) destination w1) as (Hc & _).
  unfold bind, print, modify in H.
  destruct (call_write (WriterObj wr) (py_str result) destination w1) as [[v|e] w2];
    simplify_eq; simpl in *; congruence.
Qed.

(** An attempt that succeeds has handed exactly one. *)
Lemma get_and_write_ok_write self date location writer destination w w' :
  Pipeline.get_and_write_forecast_history self date location writer destination w
  = (Ok tt, w') ->
  exists data, write_calls w' = write_calls w ++ [(data, destination)].
Proof.
  pose proof (send_request_frame (weather_data self)
    (fmt_opt (BASE_URL (weather_data self)) +:+ "history.json?key="
       +:+ API_KEY (weather_data self) +:+ "&q=" +:+ location +:+ "&dt=" +:+ date) w)
    as Hfr.
  unfold Pipeline.get_and_write_forecast_history, Weather.get_forecast_history,
    bind at 1.
  destruct (Weather.__send_request _ _ w) as [[[result status]|e] w1];
    simpl in Hfr; destruct Hfr as (Hwc & _); [|done].
  destruct (negb (status =? 200)%Z); [done|].
  destruct writer as [wr|e]; [|done].
  pose proof (call_write_recorded wr (py_str result) destination w1) as (Hc & _).
  unfold bind, print, modify.
  destruct (call_write (WriterObj wr) (py_str result) destination w1) as [[v|e] w2];
    [|done].
  intros [= <-]. simpl in *. exists (py_str result). congruence.
Qed.

Section run.
Context (weather_pipeline : WeatherPipeline) (writer : PyObj) (today : string).

(** A run that completes has sent one request per location, in order. *)
Lemma run_locations_ok_sent locations w w' :
  Pipeline.run_locations weather_pipeline writer today locations w = (Ok tt, w') ->
  sent w' = sent w ++
    map (fun location =>
           fmt_opt (BASE_URL (weather_data weather_pipeline)) +:+ "history.json?key="
             +:+ API_KEY (weather_data weather_pipeline) +:+ "&q=" +:+ location
             +:+ "&dt=" +:+ today) locations.
Proof.
  unfold Pipeline.run_locations.
  revert w. induction locations as [|x l IH]; intros w H; simpl in *.
  - unfold ret in H. simplify_eq. by rewrite app_nil_r.
  - unfold bind in H.
    match type of H with
    | context [Pipeline.get_and_write_forecast_history ?a ?b ?c ?d ?e w] =>
        pose proof (get_and_write_sent a b c d e w) as Hs;
        destruct (Pipeline.get_and_write_forecast_history a b c d e w) as [[[]|e'] w1]
    end; [|done].
    simpl in Hs. apply IH in H. rewrite H, Hs, <- app_assoc. done.
Qed.

(** It has also called [write] once per location, in order, each time for
    the destination of that location. *)
Lemma run_locations_ok_writes locations w w' :
  Pipeline.run_locations weather_pipeline writer today locations w = (Ok tt, w') ->
  map snd (write_calls w') = map snd (write_calls w) ++
    map (fun location => "./output/" +:+ location +:+ "/" +:+ today +:+ ".json") locations.
Proof.
  unfold Pipeline.run_locations.
  revert w. induction locations as [|x l IH]; intros w H; simpl in *.
  - unfold ret in H. simplify_eq. by rewrite app_nil_r.
  - unfold bind in H.
    match type of H with
    | context [Pipeline.get_and_write_forecast_history ?a ?b ?c ?d ?e w] =>
        destruct (Pipeline.get_and_write_forecast_history a b c d e w)
          as [[[]|e'] w1] eqn:Hx
    end; [|done].
    apply get_and_write_ok_write in Hx as [data Hx].
    apply IH in H. rewrite H, Hx, map_app, <- app_assoc. done.
Qed.

End run.

(** C1, as stated, fails: over the locations A, B, C where the fetch for B
    gets a 500, the script body stops at B with an uncaught exception; C is
    never requested or written, and no per-location outcome is collected. *)
Lemma run_aborts_at_first_failure :
  let w := Examples.world Examples.env_full Examples.b_fails (Some ["A"; "B"; "C"]) ∅ in
  let out := Pipeline.main w in
  fst out = Raise (mk_exn Exception_ "Failed to fetch data: {}") /\
  sent (snd out) = ["http://api/history.json?key=K&q=A&dt=2024-01-01";
                    "http://api/history.json?key=K&q=B&dt=2024-01-01"] /\
  write_calls (snd out) = [("{'temp_c': 21}", "./output/A/2024-01-01.json")] /\
  fs (snd out) !! ["output"; "A"; "2024-01-01.json"] = Some (File "{'temp_c': 21}") /\
  fs (snd out) !! ["output"; "C"; "2024-01-01.json"] = None.
Proof. vm_compute. done. Qed.

(** C1, amended: the run visits the locations in list order and stops at the
    first attempt that fails.  A run that completes has attempted every
    location: one request and one call of [write] each, in order.  If the
    attempts for [l1] succeed and the one for [x] raises [e], then the run
    over [l1 ++ x :: l2] raises [e] in the world that attempt left; the
    requests sent are those for [l1] and [x], [write] was called once for
    each location of [l1] and at most once for [x], and no location of [l2]
    is attempted. *)
Theorem run_stops_at_first_failure (weather_pipeline : WeatherPipeline) (writer : PyObj)
    (today : string) :
  let url := fun location =>
    fmt_opt (BASE_URL (weather_data weather_pipeline)) +:+ "history.json?key="
      +:+ API_KEY (weather_data weather_pipeline) +:+ "&q=" +:+ location
      +:+ "&dt=" +:+ today in
  let destination := fun location =>
    "./output/" +:+ location +:+ "/" +:+ today +:+ ".json" in
  (forall locations w w',
     Pipeline.run_locations weather_pipeline writer today locations w = (Ok tt, w') ->
     sent w' = sent w ++ map url locations /\
     map snd (write_calls w') = map snd (write_calls w) ++ map destination locations) /\
  (forall l1 x l2 w w1 w2 e,
     Pipeline.run_locations weather_pipeline writer today l1 w = (Ok tt, w1) ->
     Pipeline.get_and_write_forecast_history weather_pipeline today x writer
       (destination x) w1 = (Raise e, w2) ->
     Pipeline.run_locations weather_pipeline writer today (l1 ++ x :: l2) w
     = (Raise e, w2) /\
     sent w2 = sent w ++ map url (l1 ++ [x]) /\
     (map snd (write_calls w2) = map snd (write_calls w) ++ map destination l1 \/
      map snd (write_calls w2)
      = map snd (write_calls w) ++ map destination (l1 ++ [x]))).
Proof.
  intros url destination. split.
  - intros locations w w' H. split.
    + by apply run_locations_ok_sent in H.
    + by apply run_locations_ok_writes in H.
  - intros l1 x l2 w w1 w2 e Hl1 Hx. split; [|split].
    + unfold Pipeline.run_locations in *.
      by apply (for_each_app_raise _ l1 x l2 w w1 e w2).
    + apply run_locations_ok_sent in Hl1.
      pose proof (get_and_write_sent weather_pipeline today x writer
                    (destination x) w1) as Hs.
      rewrite Hx in Hs. simpl in Hs.
      rewrite Hs, Hl1, map_app, <- app_assoc. done.
    + apply run_locations_ok_writes in Hl1.
      pose proof (get_and_write_write_calls weather_pipeline today x writer
                    (destination x) w1) as Hw.
      rewrite Hx in Hw. simpl in Hw. destruct Hw as [Hw|[data Hw]]; rewrite Hw.
      * left. done.
      * right. rewrite !map_app, Hl1, <- app_assoc. done.
Qed.

Lemma run_stops_at_first_failure_witness :
  let w := Examples.world Examples.env_full Examples.b_fails (Some ["A"; "B"; "C"]) ∅ in
  let out := Pipeline.run_locations Examples.pipeline (WriterObj LocalWriter)
               "2024-01-01" ["A"; "B"; "C"] w in
  fst out = Raise (mk_exn Exception_ "Failed to fetch data: {}") /\
  sent (snd out) = ["http://api/history.json?key=K&q=A&dt=2024-01-01";
                    "http://api/history.json?key=K&q=B&dt=2024-01-01"] /\
  write_calls (snd out) = [("{'temp_c': 21}", "./output/A/2024-01-01.json")].
Proof.
  intros w out.
  pose (w1 := snd (Pipeline.run_locations Examples.pipeline (WriterObj LocalWriter)
                     "2024-01-01" ["A"] w)).
  pose (w2 := snd (Pipeline.get_and_write_forecast_history Examples.pipeline
                     "2024-01-01" "B" (WriterObj LocalWriter)
                     "./output/B/2024-01-01.json" w1)).
  destruct (proj2 (run_stops_at_first_failure Examples.pipeline (WriterObj LocalWriter)
                     "2024-01-01") ["A"] "B" ["C"] w w1 w2
              (mk_exn Exception_ "Failed to fetch data: {}")) as (H1 & H2 & _).
  - vm_compute. reflexivity.
  - vm_compute. reflexivity.
  - subst out. simpl in H1. rewrite H1. split; [reflexivity|]. split; [exact H2|].
    reflexivity.
Defined.

(** ** The registry of locations *)

Section registry.
Context (self : WeatherPipeline).

(** [add_location] hands the postcode to [sql] as a second positional
    argument: the call is refused with [TypeError], the [except] clause then
    fails to find [duckdb.DuckDBException], and that [AttributeError] is what
    the caller gets.  The statement has not run. *)
Lemma add_location_raises postcode w :
  Pipeline.add_location self postcode w =
  (Raise (mk_exn AttributeError "module 'duckdb' has no attribute 'DuckDBException'"), w).
Proof. reflexivity. Qed.

(** [remove_location] fails in the same way. *)
Lemma remove_location_raises postcode w :
  Pipeline.remove_location self postcode w =
  (Raise (mk_exn AttributeError "module 'duckdb' has no attribute 'DuckDBException'"), w).
Proof. reflexivity. Qed.

(** [get_locations] passes the query alone: it returns the rows stored, and
    leaves the table as it is. *)
Lemma get_locations_table w rows :
  weather_location w = Some rows ->
  fst (Pipeline.get_locations self w) = Ok rows /\
  weather_location (snd (Pipeline.get_locations self w)) = Some rows.
Proof.
  intros Ht.
  unfold Pipeline.get_locations, bind, try_except_expr, con_sql, run_statement,
    sql_select_all.
  rewrite Ht. done.
Qed.

End registry.

(** C6: [add_location] never adds.  For every location [L] and every world,
    the call raises [AttributeError] and changes nothing; so [get_locations]
    answers after it as before, and a location that was not stored is not
    listed after a call that should have added it. *)
Theorem add_location_never_inserts (self : WeatherPipeline) (L : string) (w : World) :
  (exists msg,
     Pipeline.add_location self L w = (Raise (mk_exn AttributeError msg), w)) /\
  (forall rows, weather_location w = Some rows -> L ∉ rows ->
     exists rows',
       fst (Pipeline.get_locations self (snd (Pipeline.add_location self L w)))
       = Ok rows' /\ L ∉ rows').
Proof.
  rewrite add_location_raises. split; [eauto|].
  intros rows Ht HL. exists rows. split; [|done].
  by apply get_locations_table.
Qed.

Lemma add_location_never_inserts_witness :
  let w := Examples.world Examples.env_full Examples.b_fails (Some []) ∅ in
  exists rows',
    fst (Pipeline.get_locations Examples.pipeline
           (snd (Pipeline.add_location Examples.pipeline "10001" w)))
    = Ok rows' /\ "10001" ∉ rows'.
Proof.
  intros w.
  apply (proj2 (add_location_never_inserts Examples.pipeline "10001" w) [] eq_refl).
  apply not_elem_of_nil.
Defined.

(** C8: [remove_location] never succeeds and never removes.  For every
    location [L] and every world, also when [L] is not stored, the call
    raises [AttributeError] and changes nothing; a location that was stored
    is still listed after a call that should have removed it. *)
Theorem remove_location_never_deletes (self : WeatherPipeline) (L : string) (w : World) :
  (exists msg,
     Pipeline.remove_location self L w = (Raise (mk_exn AttributeError msg), w)) /\
  (forall rows, weather_location w = Some rows ->
     fst (Pipeline.get_locations self (snd (Pipeline.remove_location self L w)))
     = Ok rows).
Proof.
  rewrite remove_location_raises. split; [eauto|].
  intros rows Ht. by apply get_locations_table.
Qed.

Lemma remove_location_never_deletes_witness :
  let w := Examples.world Examples.env_full Examples.b_fails (Some ["10001"]) ∅ in
  fst (Pipeline.get_locations Examples.pipeline
         (snd (Pipeline.remove_location Examples.pipeline "10001" w)))
  = Ok ["10001"].
Proof.
  intros w.
  apply (proj2 (remove_location_never_deletes Examples.pipeline "10001" w) ["10001"]).
  reflexivity.
Defined.

(** ** Paths *)

Lemma split_sep_nonempty s : split_sep s <> [].
Proof.
  destruct s as [|c s]; simpl; [done|].
  destruct (is_sep c); [done|]. by destruct (split_sep s).
Qed.

Lemma split_sep_single_empty s : split_sep s = [""] -> s = "".
Proof.
  destruct s as [|c s]; simpl; [done|].
  destruct (is_sep c).
  - intros H. injection H as H. by apply split_sep_nonempty in H.
  - by destruct (split_sep s).
Qed.

(** A path without separator is a single component. *)
Lemma split_sep_no_sep s : upto_last_sep s = "" -> split_sep s = [s].
Proof.
  induction s as [|c s IH]; simpl; [done|].
  destruct (is_sep c); [done|].
  destruct (upto_last_sep s); [|done]. intros _. by rewrite IH.
Qed.

(** What precedes the last separator has the components of the path but
    the last one. *)
Lemma split_sep_upto_last_sep s :
  upto_last_sep s <> "" ->
  split_sep (upto_last_sep s) = removelast (split_sep s) ++ [""].
Proof.
  induction s as [|c s IH]; [done|]. cbn [upto_last_sep split_sep].
  destruct (is_sep c) eqn:Hc.
  - intros _. cbn [split_sep]. rewrite Hc.
    destruct (decide (upto_last_sep s = "")) as [He|Hne].
    + rewrite He, (split_sep_no_sep s He). done.
    + rewrite (IH Hne).
      pose proof (split_sep_nonempty s) as Hn.
      destruct (split_sep s) as [|x l]; [done|]. done.
  - destruct (upto_last_sep s) as [|c' r] eqn:Hr; [done|]. intros _.
    specialize (IH ltac:(done)).
    set (t := String c' r) in *.
    cbn [split_sep]. rewrite Hc, IH.
    destruct (split_sep s) as [|x [|y l]] eqn:Hs.
    + by apply split_sep_nonempty in Hs.
    + change (split_sep t = [""]) in IH. by apply split_sep_single_empty in IH.
    + done.
Qed.

Lemma rstrip_sep_empty s : rstrip_sep s = "" -> all_sep s = true.
Proof.
  induction s as [|c s IH]; simpl; [done|].
  destruct (rstrip_sep s); [|done].
  destruct (is_sep c); [|done]. intros _. by apply IH.
Qed.

(** Stripping trailing separators only drops empty components. *)
Lemma split_sep_rstrip_sep s :
  exists k, split_sep s = split_sep (rstrip_sep s) ++ replicate k "".
Proof.
  induction s as [|c s [k IH]]; [by exists 0|]. cbn [rstrip_sep split_sep].
  destruct (rstrip_sep s) as [|c' r] eqn:Hr.
  - simpl in IH. destruct (is_sep c) eqn:Hc.
    + exists (S k). by rewrite IH.
    + exists k. rewrite IH. cbn [split_sep]. by rewrite Hc.
  - set (t := String c' r) in *. cbn [split_sep].
    exists k. rewrite IH.
    destruct (is_sep c); [done|].
    pose proof (split_sep_nonempty t) as Hn.
    destruct (split_sep t); done.
Qed.

Lemma components_rstrip_sep s : components (rstrip_sep s) = components s.
Proof.
  unfold components. destruct (split_sep_rstrip_sep s) as [k ->].
  rewrite filter_app.
  assert (filter (fun x : string => x <> "" /\ x <> ".") (replicate k "") = []) as ->.
  { induction k as [|k IH]; [done|]. simpl. rewrite filter_cons_False; [done|]. tauto. }
  by rewrite app_nil_r.
Qed.

Lemma components_upto_last_sep d :
  components (upto_last_sep d) =
  filter (fun x => x <> "" /\ x <> ".") (removelast (split_sep d)).
Proof.
  unfold components. destruct (decide (upto_last_sep d = "")) as [He|Hne].
  - rewrite He, (split_sep_no_sep d He). done.
  - rewrite (split_sep_upto_last_sep d Hne), filter_app.
    rewrite (filter_cons_False _ ""); [|tauto]. by rewrite app_nil_r.
Qed.

Lemma components_dirname d : components (dirname d) = components (upto_last_sep d).
Proof.
  unfold dirname. case_match; [|done]. apply components_rstrip_sep.
Qed.

(** The components of a path are those of its [dirname], then its last
    name when that is a real name. *)
Lemma components_dirname_last d :
  exists name,
    components d = components (dirname d) ++
                   (if decide (name <> "" /\ name <> ".") then [name] else []).
Proof.
  rewrite components_dirname, components_upto_last_sep. unfold components.
  pose proof (split_sep_nonempty d) as Hn.
  destruct (split_sep d) as [|x l] using rev_ind; [done|]. clear IHl.
  exists x. rewrite removelast_last, filter_app. reflexivity.
Qed.

Lemma is_abs_upto_last_sep d : is_abs (upto_last_sep d) = is_abs d.
Proof.
  destruct d as [|c d]; simpl; [done|].
  destruct (is_sep c) eqn:Hc; [done|].
  destruct (upto_last_sep d); simpl; done.
Qed.

Lemma is_abs_rstrip_sep s : all_sep s = false -> is_abs (rstrip_sep s) = is_abs s.
Proof.
  destruct s as [|c s]; [done|]. cbn [all_sep rstrip_sep].
  destruct (rstrip_sep s) eqn:Hr; [|done].
  destruct (is_sep c) eqn:Hc; [|by simpl; rewrite Hc].
  apply rstrip_sep_empty in Hr. rewrite Hr. done.
Qed.

Lemma is_abs_dirname d : is_abs (dirname d) = is_abs d.
Proof.
  unfold dirname. case_match eqn:H.
  - apply andb_true_iff in H as [_ H]. apply negb_true_iff in H.
    rewrite is_abs_rstrip_sep by done. apply is_abs_upto_last_sep.
  - apply is_abs_upto_last_sep.
Qed.

Lemma resolve_in_dirname_last dir d :
  exists name,
    resolve_in dir d = resolve_in dir (dirname d) ++
                       (if decide (name <> "" /\ name <> ".") then [name] else []).
Proof.
  destruct (components_dirname_last d) as [name H]. exists name.
  unfold resolve_in. rewrite is_abs_dirname, H. by rewrite app_assoc.
Qed.

(** ** The file system *)

Lemma lookup_node_insert_ne f p q n :
  p <> q -> q <> [] -> lookup_node (<[q := n]> f) p = lookup_node f p.
Proof.
  intros Hne Hq. destruct p as [|x p]; [done|]. simpl.
  by rewrite lookup_insert_ne.
Qed.

Lemma lookup_node_insert_eq f p n :
  p <> [] -> lookup_node (<[p := n]> f) p = Some n.
Proof. intros Hp. destruct p; [done|]. simpl. by rewrite lookup_insert_eq. Qed.

(** [makedirs] changes no node that exists. *)
Lemma makedirs_from_preserves name todo :
  forall done f f', makedirs_from name done todo f = Ok f' ->
  forall q n, lookup_node f q = Some n -> lookup_node f' q = Some n.
Proof.
  induction todo as [|c todo IH]; intros done f f' H q n Hq; simpl in H.
  - by simplify_eq.
  - assert (done ++ [c] <> []) as Hne by (by destruct done).
    destruct (lookup_node f (done ++ [c])) as [[|content]|] eqn:Hl.
    + by apply (IH _ _ _ H).
    + by destruct todo.
    + apply (IH _ _ _ H). rewrite lookup_node_insert_ne; [done| |done].
      intros ->. congruence.
Qed.

(** After [makedirs], every directory on the way is there. *)
Lemma makedirs_from_dirs name todo :
  forall done f f', makedirs_from name done todo f = Ok f' ->
  lookup_node f done = Some Dir ->
  forall q, q `prefix_of` todo -> lookup_node f' (done ++ q) = Some Dir.
Proof.
  induction todo as [|c todo IH]; intros done f f' H Hd q Hq.
  - apply prefix_nil_inv in Hq as ->. rewrite app_nil_r.
    by apply (makedirs_from_preserves _ _ _ _ _ H).
  - destruct q as [|x q].
    { rewrite app_nil_r. by apply (makedirs_from_preserves _ _ _ _ _ H). }
    apply prefix_cons_inv_1 in Hq as Hx. apply prefix_cons_inv_2 in Hq. subst x.
    assert (done ++ [c] <> []) as Hne by (by destruct done).
    replace (done ++ c :: q) with ((done ++ [c]) ++ q) by (by rewrite <- app_assoc).
    simpl in H.
    destruct (lookup_node f (done ++ [c])) as [[|content]|] eqn:Hl.
    + by apply (IH _ _ _ H).
    + by destruct todo.
    + apply (IH _ _ _ H); [|done]. by apply lookup_node_insert_eq.
Qed.

(** [makedirs] creates directories only: the files are those there were. *)
Lemma makedirs_from_files name todo :
  forall done f f', makedirs_from name done todo f = Ok f' ->
  forall q content, f' !! q = Some (File content) -> f !! q = Some (File content).
Proof.
  induction todo as [|c todo IH]; intros done f f' H q content Hq; simpl in H.
  - by simplify_eq.
  - destruct (lookup_node f (done ++ [c])) as [[|content']|] eqn:Hl.
    + by apply (IH _ _ _ H).
    + by destruct todo.
    + apply (IH _ _ _ H) in Hq.
      destruct (decide (done ++ [c] = q)) as [<-|Hne].
      * by rewrite lookup_insert_eq in Hq.
      * by rewrite lookup_insert_ne in Hq.
Qed.

Lemma makedirs_ok name w w' :
  makedirs name w = (Ok tt, w') ->
  name <> "" /\
  makedirs_from name [] (resolve_in (cwd w) name) (fs w) = Ok (fs w') /\
  w' = set_fs (fs w') w.
Proof.
  unfold makedirs. case_bool_decide; [done|].
  destruct (makedirs_from _ _ _ _) as [f|e]; [|done].
  intros Hw. by simplify_eq.
Qed.

(** A successful [open(destination, "w")]: the destination is a real name
    in a directory, and the file is there, empty. *)
Lemma open_w_ok destination w p w1 :
  open_w destination w = (Ok p, w1) ->
  p = resolve_in (cwd w) destination /\
  lookup_node (fs w) (removelast p) = Some Dir /\
  lookup_node (fs w) p <> Some Dir /\
  w1 = set_fs (<[p := File ""]> (fs w)) w.
Proof.
  unfold open_w. intros H.
  repeat (case_match; simplify_eq; try done);
    (split; [done|]); (split; [done|]); (split; [congruence|done]).
Qed.


(** A successful [open(destination, "w")] and [write]: the destination is a
    real name in a directory, and the file holds the data. *)
Lemma open_w_write_ok destination data w w' :
  open_w_write destination data w = (Ok tt, w') ->
  let p := resolve_in (cwd w) destination in
  lookup_node (fs w) (removelast p) = Some Dir /\
  lookup_node (fs w) p <> Some Dir /\
  w' = set_fs (<[p := File data]> (fs w)) w.
Proof.
  unfold open_w_write, bind. intros H.
  destruct (open_w destination w) as [[p|e] w1] eqn:Ho; [|done].
  apply open_w_ok in Ho as (-> & Hparent & Hnd & ->).
  unfold file_write in H. simpl in H.
  destruct (write_fault w destination data) as [[msg|msg written]|]; try done.
  simplify_eq. rewrite insert_insert_eq. done.
Qed.

Lemma prefix_snoc_inv {A} (q l : list A) (x : A) :
  q `prefix_of` l ++ [x] -> q = l ++ [x] \/ q `prefix_of` l.
Proof.
  intros [k Hk]. destruct k as [|y k _] using rev_ind.
  - left. by rewrite app_nil_r in Hk.
  - right. rewrite app_assoc in Hk. apply app_inj_tail in Hk as [-> _].
    by exists k.
Qed.

(** A successful [LocalWriter.write]: the directories down to the parent of
    the destination exist once [os.makedirs] has run, and the file is then
    written over that state. *)
Lemma LocalWriter_write_ok data destination w w' v :
  LocalWriter_.write data destination w = (Ok v, w') ->
  exists f,
    makedirs_from (dirname destination) [] (resolve_in (cwd w) (dirname destination))
      (fs w) = Ok f /\
    (forall q, q `prefix_of` resolve_in (cwd w) destination ->
               q <> resolve_in (cwd w) destination -> lookup_node f q = Some Dir) /\
    fs w' = <[resolve_in (cwd w) destination := File data]> f.
Proof.
  unfold LocalWriter_.write, bind, try_except. intros H.
  destruct (makedirs (dirname destination) w) as [[[]|e] w1] eqn:Hm; [|done].
  apply makedirs_ok in Hm as (Hname & Hm & Hw1).
  destruct (open_w_write destination data w1) as [[[]|e] w2] eqn:Ho;
    [|by destruct (isinstance e OSError)].
  apply open_w_write_ok in Ho as (Hparent & Hnd & Hw2).
  assert (cwd w1 = cwd w) as Hcwd by (by rewrite Hw1).
  rewrite Hcwd in *.
  exists (fs w1). split; [done|].
  assert (fs w' = fs w2) as -> by (unfold print, modify, ret in H; by simplify_eq).
  split; [|by rewrite Hw2].
  destruct (resolve_in_dirname_last (cwd w) destination) as [name Hp].
  pose proof (makedirs_from_dirs _ _ _ _ _ Hm eq_refl) as Hdirs.
  destruct (decide (name <> "" /\ name <> ".")) as [Hreal|Hnot].
  - intros q Hq Hne. rewrite Hp in Hq, Hne.
    apply prefix_snoc_inv in Hq as [->|Hq]; [done|]. by apply (Hdirs q).
  - rewrite app_nil_r in Hp. exfalso. apply Hnd. rewrite Hp.
    by apply (Hdirs (resolve_in (cwd w) (dirname destination))).
Qed.




(** * Further properties of the code *)

(** ** Validation in [get_forecast_future] *)

Lemma lower_char_inv c d :
  lower_char c = d -> c = d \/ c = ascii_of_N (N_of_ascii d - 32).
Proof.
  intros <-.
  destruct c as [[] [] [] [] [] [] [] []]; vm_compute;
    ((left; reflexivity) || (right; reflexivity)).
Qed.

Lemma lower_eq_yes s :
  lower s = "yes" ->
  s ∈ ["yes"; "yeS"; "yEs"; "yES"; "Yes"; "YeS"; "YEs"; "YES"].
Proof.
  destruct s as [|c1 [|c2 [|c3 [|c4 s]]]]; try done. simpl. intros [= H1 H2 H3].
  apply lower_char_inv in H1 as [-> | ->], H2 as [-> | ->], H3 as [-> | ->];
    vm_compute; set_solver.
Qed.

Lemma lower_eq_no s : lower s = "no" -> s ∈ ["no"; "nO"; "No"; "NO"].
Proof.
  destruct s as [|c1 [|c2 [|c3 s]]]; try done. simpl. intros [= H1 H2].
  apply lower_char_inv in H1 as [-> | ->], H2 as [-> | ->]; vm_compute; set_solver.
Qed.

(** X1: [get_forecast_future] validates before it sends.  With [days < 1]
    or an [alerts] flag that is not yes or no, it raises [ValueError] and the
    world is untouched (no request); otherwise it sends exactly one request,
    to the forecast URL built from its arguments. *)
Theorem forecast_validation_precedes_the_request (self : WeatherData)
    (location : string) (days : Z) (alerts aq : string) (w : World) :
  ((days < 1)%Z \/ Weather.in_yes_no (lower alerts) = false ->
   exists msg,
     Weather.get_forecast_future self location days alerts aq w
     = (Raise (mk_exn ValueError msg), w)) /\
  ((1 <= days)%Z /\ Weather.in_yes_no (lower alerts) = true ->
   sent (snd (Weather.get_forecast_future self location days alerts aq w))
   = sent w ++ [fmt_opt (BASE_URL self) +:+ "forecast.json?key=" +:+ API_KEY self
                  +:+ "&q=" +:+ location +:+ "&days=" +:+ pretty days
                  +:+ "&aqi=" +:+ aq +:+ "&alerts=" +:+ alerts]).
Proof.
  split.
  - intros H. destruct (decide (days < 1)%Z) as [Hd|Hd].
    + rewrite get_forecast_future_days by done. eauto.
    + destruct H as [H|H]; [done|].
      rewrite get_forecast_future_alerts by (done || lia). eauto.
  - intros [Hd Ha]. rewrite get_forecast_future_valid by done.
    apply send_request_sent.
Qed.

Lemma forecast_validation_precedes_the_request_witness :
  let w := Examples.world Examples.env_full
             (Examples.always (Examples.respond 200 "OK" (Some Examples.payload)))
             (Some []) ∅ in
  (exists msg,
     Weather.get_forecast_future Examples.client "London" 0 "yes" "no" w
     = (Raise (mk_exn ValueError msg), w)) /\
  sent (snd (Weather.get_forecast_future Examples.client "London" 3 "No" "yes" w))
  = ["http://api/forecast.json?key=K&q=London&days=3&aqi=yes&alerts=No"].
Proof.
  intros w. split.
  - apply (proj1 (forecast_validation_precedes_the_request Examples.client "London" 0
                    "yes" "no" w)).
    left. lia.
  - apply (proj2 (forecast_validation_precedes_the_request Examples.client "London" 3
                    "No" "yes" w)).
    split; [lia|reflexivity].
Defined.

(** X2: the [alerts] flag is accepted without regard to case: the flags that
    pass the test are exactly the spellings of yes and no in upper and lower
    case letters. *)
Theorem alerts_flag_is_case_insensitive (alerts : string) :
  Weather.in_yes_no (lower alerts) = true <->
  alerts ∈ ["yes"; "yeS"; "yEs"; "yES"; "Yes"; "YeS"; "YEs"; "YES";
            "no"; "nO"; "No"; "NO"].
Proof.
  unfold Weather.in_yes_no. split.
  - intros H. apply orb_true_iff in H as [H|H]; apply bool_decide_eq_true in H.
    + apply lower_eq_yes, list_elem_of_In in H.
      apply list_elem_of_In. simpl in *. tauto.
    + apply lower_eq_no, list_elem_of_In in H.
      apply list_elem_of_In. simpl in *. tauto.
  - intros H. repeat (apply elem_of_cons in H as [->|H]; [reflexivity|]).
    by apply elem_of_nil in H.
Qed.

(** ** Results of [__send_request] *)

(** X3: whenever the provider answers, [__send_request] either returns the
    status of the response or passes on an exception of the JSON decoder.
    For a status in 400..599, also with a JSON body, and for a body that is
    not JSON, it returns the empty dictionary with that status.  Otherwise it
    returns the decoded body with that status, unless decoding raises: an
    exception that is not a [RequestException] (a [ValueError] for an
    over-long integer) then leaves the call, and a [RequestException] gives
    the empty dictionary again. *)
Theorem response_status_is_returned (self : WeatherData) (url : string) (w : World)
    (r : Response) :
  remote w (sent w) url = Responded r ->
  ((400 <= status_code r < 600)%Z \/ json_body r = None ->
   fst (Weather.__send_request self url w) = Ok (empty_dict, status_code r)) /\
  (forall doc, json_body r = Some doc -> ~ (400 <= status_code r < 600)%Z ->
   decode_fault w r = None ->
   fst (Weather.__send_request self url w) = Ok (doc, status_code r)) /\
  (forall doc e, json_body r = Some doc -> ~ (400 <= status_code r < 600)%Z ->
   decode_fault w r = Some e ->
   fst (Weather.__send_request self url w)
   = if isinstance e RequestException then Ok (empty_dict, status_code r) else Raise e).
Proof.
  intros Hr. split; [|split].
  - intros [H|H].
    + by apply send_request_http_error.
    + by apply send_request_bad_body.
  - intros doc Hb Hs Hd. by apply send_request_ok.
  - intros doc e Hb Hs Hd.
    destruct (isinstance e RequestException) eqn:Hi.
    + unfold Weather.__send_request, requests_get. rewrite Hr.
      unfold try_except, bind, raise_for_status, json. rewrite Hb.
      destruct ((400 <=? status_code r) && (status_code r <? 500))%Z eqn:H4;
        [apply andb_true_iff in H4; lia|].
      destruct ((500 <=? status_code r) && (status_code r <? 600))%Z eqn:H5;
        [apply andb_true_iff in H5; lia|].
      simpl. by rewrite Hd, Hi.
    + by apply (send_request_decode_fault self url w r doc e).
Qed.

Lemma response_status_is_returned_witness :
  let r := mk_response 404 "Not Found" (Some (PyDict [("error", PyStr "no such place")])) in
  let w := Examples.world Examples.env_full (Examples.always (Responded r)) (Some []) ∅ in
  fst (Weather.__send_request Examples.client "http://api/x" w) = Ok (empty_dict, 404%Z).
Proof.
  intros r w.
  apply (proj1 (response_status_is_returned Examples.client "http://api/x" w r eq_refl)).
  left. simpl. lia.
Defined.

(** X4: a fetch never retries and never stays silent: [get_forecast_history]
    sends exactly one request, to the history URL built from the base URL,
    the key, the location and the date, whatever the outcome, and it changes
    neither the file system nor the table nor the record of writes. *)
Theorem history_fetch_sends_exactly_one_request (self : WeatherData)
    (date location : string) (w : World) :
  let w' := snd (Weather.get_forecast_history self date location w) in
  sent w' = sent w ++ [fmt_opt (BASE_URL self) +:+ "history.json?key=" +:+ API_KEY self
                         +:+ "&q=" +:+ location +:+ "&dt=" +:+ date] /\
  fs w' = fs w /\ weather_location w' = weather_location w /\
  write_calls w' = write_calls w.
Proof.
  unfold Weather.get_forecast_history. split; [apply send_request_sent|].
  match goal with
  | |- context [Weather.__send_request self ?u w] =>
      pose proof (send_request_frame self u w) as H
  end.
  simpl in H. tauto.
Qed.

Lemma alerts_flag_is_case_insensitive_witness :
  Weather.in_yes_no (lower "YeS") = true.
Proof.
  apply (proj2 (alerts_flag_is_case_insensitive "YeS")).
  apply list_elem_of_In. simpl. tauto.
Defined.

(** ** One location: what reaches the writer *)

(** X5: a response with status 200 whose body is not JSON counts as a
    successful fetch of the empty dictionary: [get_and_write_forecast_history]
    goes on and hands the two characters of an empty dictionary to the
    writer, for the destination. *)
Theorem non_json_200_body_is_written_as_empty_dict (self : WeatherPipeline)
    (date location : string) (wr : Writer) (destination : string) (w : World)
    (r : Response) :
  remote w (sent w)
    (fmt_opt (BASE_URL (weather_data self)) +:+ "history.json?key="
       +:+ API_KEY (weather_data self) +:+ "&q=" +:+ location +:+ "&dt=" +:+ date)
  = Responded r ->
  status_code r = 200%Z ->
  json_body r = None ->
  write_calls (snd (Pipeline.get_and_write_forecast_history self date location
                      (WriterObj wr) destination w))
  = write_calls w ++ [("{}", destination)].
Proof.
  intros Hr Hs Hb.
  pose proof (send_request_bad_body (weather_data self) _ w r Hr Hb) as Hf.
  match type of Hr with
  | remote w (sent w) ?u = _ =>
      pose proof (send_request_frame (weather_data self) u w) as (Hwc & _);
      destruct (Weather.__send_request (weather_data self) u w) as [res w1] eqn:Hsend
  end.
  rewrite Hs in Hf. simpl in Hf, Hwc. subst res.
  rewrite (get_and_write_200 self date location _ destination w empty_dict w1 Hsend).
  pose proof (call_write_recorded wr (py_str empty_dict) destination w1) as (Hc & _).
  unfold bind, print, modify.
  destruct (call_write (WriterObj wr) (py_str empty_dict) destination w1) as [[v|e] w2];
    simpl in *; rewrite Hc, Hwc; reflexivity.
Qed.

Lemma non_json_200_body_is_written_as_empty_dict_witness :
  let w := Examples.world Examples.env_full
             (Examples.always (Examples.respond 200 "OK" None)) (Some []) ∅ in
  write_calls (snd (Pipeline.get_and_write_forecast_history Examples.pipeline
                      "2024-01-01" "10001" (WriterObj LocalWriter)
                      "/tmp/out/10001/2024-01-01.json" w))
  = [("{}", "/tmp/out/10001/2024-01-01.json")].
Proof.
  intros w.
  apply (non_json_200_body_is_written_as_empty_dict Examples.pipeline "2024-01-01"
           "10001" LocalWriter "/tmp/out/10001/2024-01-01.json" w
           (mk_response 200 "OK" None)); reflexivity.
Defined.

(** X6: [get_and_write_forecast_history] calls [write] at most once, and only
    after a fetch that returned status 200.  For every writer object and
    every world, either nothing was handed to a writer and the file system
    is as before, or the fetch returned some [result] with status 200 and
    the one call made is [write(str(result), destination)]. *)
Theorem write_only_after_a_fetch_with_status_200 (self : WeatherPipeline)
    (date location : string) (writer : PyObj) (destination : string) (w : World) :
  let out := Pipeline.get_and_write_forecast_history self date location writer
               destination w in
  (write_calls (snd out) = write_calls w /\ fs (snd out) = fs w) \/
  (exists result w1,
     Weather.get_forecast_history (weather_data self) date location w
     = (Ok (result, 200%Z), w1) /\
     write_calls (snd out) = write_calls w ++ [(py_str result, destination)]).
Proof.
  intros out. subst out.
  pose proof (send_request_frame (weather_data self)
    (fmt_opt (BASE_URL (weather_data self)) +:+ "history.json?key="
       +:+ API_KEY (weather_data self) +:+ "&q=" +:+ location +:+ "&dt=" +:+ date) w)
    as Hfr.
  destruct (Weather.get_forecast_history (weather_data self) date location w)
    as [[[result status]|e] w1] eqn:Hf.
  - unfold Weather.get_forecast_history in Hf. rewrite Hf in Hfr. simpl in Hfr.
    destruct Hfr as (Hwc & Hfs & _).
    destruct (decide (status = 200%Z)) as [->|Hs].
    + rewrite (get_and_write_200 self date location _ destination w result w1 Hf).
      destruct writer as [wr|e].
      * right. exists result, w1. split; [done|].
        pose proof (call_write_recorded wr (py_str result) destination w1) as (Hc & _).
        unfold bind, print, modify.
        destruct (call_write (WriterObj wr) (py_str result) destination w1)
          as [[v|e] w2]; simpl in *; congruence.
      * left. simpl. done.
    + left.
      rewrite (get_and_write_not_200 self date location _ destination w result status w1)
        by done.
      done.
  - left. unfold Weather.get_forecast_history in Hf. rewrite Hf in Hfr. simpl in Hfr.
    destruct Hfr as (Hwc & Hfs & _).
    unfold Pipeline.get_and_write_forecast_history.
    rewrite (bind_raise _ _ _ _ _ Hf). done.
Qed.

(** X7: through an [AzureBlobWriter], whose [write] is an empty placeholder,
    a fetch with status 200 ends in success: the call returns, the success
    line is printed, and no file has been created or changed. *)
Theorem azure_writer_reports_success_and_writes_nothing (self : WeatherPipeline)
    (date location : string) (cs : option string) (destination : string)
    (w w1 : World) (result : PyVal) :
  Weather.get_forecast_history (weather_data self) date location w
  = (Ok (result, 200%Z), w1) ->
  let out := Pipeline.get_and_write_forecast_history self date location
               (WriterObj (AzureBlobWriter cs)) destination w in
  fst out = Ok tt /\
  fs (snd out) = fs w /\
  stdout (snd out) = stdout w1 ++ ["Data written to " +:+ destination +:+ " successfully."].
Proof.
  intros Hf out. subst out.
  pose proof (send_request_frame (weather_data self)
    (fmt_opt (BASE_URL (weather_data self)) +:+ "history.json?key="
       +:+ API_KEY (weather_data self) +:+ "&q=" +:+ location +:+ "&dt=" +:+ date) w)
    as Hfr.
  rewrite (get_and_write_200 self date location _ destination w result w1 Hf).
  unfold Weather.get_forecast_history in Hf. rewrite Hf in Hfr. simpl in Hfr.
  destruct Hfr as (_ & Hfs & _). simpl. done.
Qed.

Lemma azure_writer_reports_success_and_writes_nothing_witness :
  let w := Examples.world Examples.env_full
             (Examples.always (Examples.respond 200 "OK" (Some Examples.payload)))
             (Some []) ∅ in
  let out := Pipeline.get_and_write_forecast_history Examples.pipeline "2024-01-01"
               "10001" (WriterObj (AzureBlobWriter None))
               "/tmp/out/10001/2024-01-01.json" w in
  fst out = Ok tt /\ fs (snd out) = ∅.
Proof.
  intros w out.
  destruct (azure_writer_reports_success_and_writes_nothing Examples.pipeline
              "2024-01-01" "10001" None "/tmp/out/10001/2024-01-01.json" w
              (snd (Weather.get_forecast_history Examples.client "2024-01-01" "10001" w))
              Examples.payload) as (H1 & H2 & _).
  - reflexivity.
  - split; [exact H1|exact H2].
Defined.

(** X8: the object [get_writer("azure")] returns is accepted by the pipeline
    until it is used: the request is sent first, and with a fetch of status
    200 the call then fails with [AttributeError] at [writer.write], in the
    world the fetch left. *)
Theorem azure_identifier_fails_only_at_the_write (self : WeatherPipeline)
    (date location destination : string) (auth : gmap string string)
    (w w1 : World) (result : PyVal) :
  Weather.get_forecast_history (weather_data self) date location w
  = (Ok (result, 200%Z), w1) ->
  exists msg,
    (writer <- get_writer "azure" auth ;;
     Pipeline.get_and_write_forecast_history self date location writer destination) w
    = (Raise (mk_exn AttributeError msg), w1) /\
    sent w1 = sent w ++ [fmt_opt (BASE_URL (weather_data self)) +:+ "history.json?key="
                           +:+ API_KEY (weather_data self) +:+ "&q=" +:+ location
                           +:+ "&dt=" +:+ date].
Proof.
  intros Hf. eexists. split.
  - unfold bind at 1. simpl.
    rewrite (get_and_write_200 self date location _ destination w result w1 Hf).
    reflexivity.
  - pose proof (send_request_sent (weather_data self)
      (fmt_opt (BASE_URL (weather_data self)) +:+ "history.json?key="
         +:+ API_KEY (weather_data self) +:+ "&q=" +:+ location +:+ "&dt=" +:+ date) w)
      as Hs.
    unfold Weather.get_forecast_history in Hf. by rewrite Hf in Hs.
Qed.

Lemma azure_identifier_fails_only_at_the_write_witness :
  let w := Examples.world Examples.env_full
             (Examples.always (Examples.respond 200 "OK" (Some Examples.payload)))
             (Some []) ∅ in
  exists msg,
    fst ((writer <- get_writer "azure" ∅ ;;
          Pipeline.get_and_write_forecast_history Examples.pipeline "2024-01-01" "10001"
            writer "/tmp/out/10001/2024-01-01.json") w)
    = Raise (mk_exn AttributeError msg).
Proof.
  intros w.
  destruct (azure_identifier_fails_only_at_the_write Examples.pipeline "2024-01-01"
              "10001" "/tmp/out/10001/2024-01-01.json" ∅ w
              (snd (Weather.get_forecast_history Examples.client "2024-01-01" "10001" w))
              Examples.payload) as (msg & H & _).
  - reflexivity.
  - exists msg. rewrite H. reflexivity.
Defined.

(** ** Construction of the pipeline *)

(** X9: [WeatherPipeline()] builds one instance per process.  After a call
    that succeeded, the instance is registered, and every later call, in any
    world that holds this registration (whatever the environment and the
    table have become), returns that same instance and changes nothing. *)
Theorem pipeline_instance_is_built_once (w w1 : World) (instance : WeatherPipeline) :
  Pipeline.new w = (Ok instance, w1) ->
  instances w1 = Some instance /\
  (forall w2, instances w2 = instances w1 -> Pipeline.new w2 = (Ok instance, w2)).
Proof.
  intros H.
  assert (instances w1 = Some instance) as Hi.
  { unfold Pipeline.new, bind at 1, gets in H.
    destruct (instances w) as [i|] eqn:Hw.
    - unfold ret in H. by simplify_eq.
    - unfold bind in H.
      destruct (Pipeline.__init__ w) as [[i|e] w0]; [|done].
      unfold modify, ret in H. by simplify_eq. }
  split; [done|]. intros w2 H2.
  unfold Pipeline.new, bind, gets. by rewrite H2, Hi.
Qed.

Lemma pipeline_instance_is_built_once_witness :
  let w := Examples.world Examples.env_full Examples.b_fails None ∅ in
  let w1 := snd (Pipeline.new w) in
  instances w1 = Some Examples.pipeline /\
  Pipeline.new (set_weather_location None w1) =
  (Ok Examples.pipeline, set_weather_location None w1).
Proof.
  intros w w1.
  destruct (pipeline_instance_is_built_once w w1 Examples.pipeline) as [H1 H2].
  - reflexivity.
  - split; [exact H1|]. apply H2. reflexivity.
Defined.



(** ** [LocalWriter.write]: failures and what it leaves alone *)

Lemma upto_last_sep_no_sep d : contains_char "/" d = false -> upto_last_sep d = "".
Proof.
  induction d as [|c d IH]; [done|]. cbn [contains_char upto_last_sep].
  unfold is_sep. rewrite (Ascii.eqb_sym c "/").
  destruct (Ascii.eqb "/" c).
  - rewrite orb_true_l. done.
  - rewrite orb_false_l. intros H. by rewrite IH.
Qed.

Lemma makedirs_from_preserves_raw name todo :
  forall base f f', makedirs_from name base todo f = Ok f' ->
  forall q n, f !! q = Some n -> f' !! q = Some n.
Proof.
  induction todo as [|c todo IH]; intros base f f' H q n Hq; simpl in H.
  - by simplify_eq.
  - assert (base ++ [c] <> []) as Hne by (by destruct base).
    destruct (lookup_node f (base ++ [c])) as [[|content]|] eqn:Hl.
    + by apply (IH _ _ _ H).
    + by destruct todo.
    + apply (IH _ _ _ H). rewrite lookup_insert_ne; [done|].
      intros <-. destruct (base ++ [c]); [done|]. simpl in Hl. congruence.
Qed.





Lemma LocalWriter_write_returns_True data destination w v w' :
  LocalWriter_.write data destination w = (Ok v, w') ->
  v = PyBool true /\
  stdout w' = stdout w ++ ["Data written to " +:+ destination].
Proof.
  unfold LocalWriter_.write, bind, try_except. intros H.
  destruct (makedirs (dirname destination) w) as [[[]|e] w1] eqn:Hm; [|done].
  apply makedirs_ok in Hm as (_ & _ & Hw1).
  destruct (open_w_write destination data w1) as [[[]|e] w2] eqn:Ho;
    [|by destruct (isinstance e OSError)].
  apply open_w_write_ok in Ho as (_ & _ & Hw2).
  rewrite Hw2, Hw1 in H. unfold print, modify, ret in H. by simplify_eq.
Qed.

(** X14: a destination without directory part is refused: when the
    destination holds no separator, [os.path.dirname] gives the empty
    string, [os.makedirs] raises [FileNotFoundError] for it, and
    [LocalWriter.write] raises that error, unwrapped, with the world
    unchanged: no file is written. *)
Theorem local_write_refuses_a_bare_file_name (data destination : string) (w : World) :
  contains_char "/" destination = false ->
  LocalWriter_.write data destination w =
  (Raise (mk_exn FileNotFoundError "[Errno 2] No such file or directory: ''"), w).
Proof.
  intros H. apply upto_last_sep_no_sep in H.
  unfold LocalWriter_.write, bind, dirname. rewrite H. reflexivity.
Qed.

Lemma local_write_refuses_a_bare_file_name_witness :
  fst (LocalWriter_.write "{}" "2024-01-01.json"
         (Examples.world Examples.env_full Examples.b_fails (Some []) ∅))
  = Raise (mk_exn FileNotFoundError "[Errno 2] No such file or directory: ''").
Proof.
  rewrite (local_write_refuses_a_bare_file_name "{}" "2024-01-01.json"
             (Examples.world Examples.env_full Examples.b_fails (Some []) ∅) eq_refl).
  reflexivity.
Defined.



(** X16: a [LocalWriter.write] that succeeds, for a destination without a
    [..] component, returns [True], prints its line, and changes the file
    system at the destination only, apart from the directories it creates:
    the destination holds the data, every other node that existed is
    unchanged, and no other file has appeared. *)
Theorem local_write_changes_only_the_destination (data destination : string)
    (w w' : World) (v : PyVal) :
  ".." ∉ components destination ->
  LocalWriter_.write data destination w = (Ok v, w') ->
  v = PyBool true /\
  stdout w' = stdout w ++ ["Data written to " +:+ destination] /\
  fs w' !! resolve_in (cwd w) destination = Some (File data) /\
  (forall q n, q <> resolve_in (cwd w) destination ->
     fs w !! q = Some n -> fs w' !! q = Some n) /\
  (forall q content, q <> resolve_in (cwd w) destination ->
     fs w' !! q = Some (File content) -> fs w !! q = Some (File content)).
Proof.
  intros _ H.
  destruct (LocalWriter_write_returns_True _ _ _ _ _ H) as [Hv Hout].
  apply LocalWriter_write_ok in H as (f & Hm & _ & Hfs).
  split; [done|]. split; [done|]. rewrite Hfs. split; [apply lookup_insert_eq|]. split.
  - intros q n Hq Hn. rewrite lookup_insert_ne by done.
    by apply (makedirs_from_preserves_raw _ _ _ _ _ Hm).
  - intros q content Hq Hn. rewrite lookup_insert_ne in Hn by done.
    by apply (makedirs_from_files _ _ _ _ _ Hm).
Qed.

Lemma local_write_changes_only_the_destination_witness :
  let w := Examples.world Examples.env_full Examples.b_fails (Some []) Examples.old_files in
  let out := LocalWriter_.write "new" "/tmp/out/10002/2024-01-01.json" w in
  fst out = Ok (PyBool true) /\
  fs (snd out) !! ["tmp"; "out"; "10002"; "2024-01-01.json"] = Some (File "new") /\
  fs (snd out) !! ["tmp"; "out"; "10001"; "2024-01-01.json"] = Some (File "old").
Proof.
  intros w out.
  destruct (local_write_changes_only_the_destination "new"
              "/tmp/out/10002/2024-01-01.json" w (snd out) (PyBool true))
    as (_ & _ & H1 & H2 & _).
  - intros Hin. apply list_elem_of_In in Hin. vm_compute in Hin.
    intuition discriminate.
  - vm_compute. reflexivity.
  - split; [reflexivity|]. split; [exact H1|].
    apply H2; [discriminate|reflexivity].
Defined.

(** ** The script body *)

(** The script body in a fresh process with the database path and the API
    key set: the table is created when missing, the locations are listed,
    and the loop runs. *)
Lemma main_fresh w path key :
  instances w = None ->
  environ w !! "DUCK_DB_PATH" = Some path ->
  environ w !! "WEATHER_API_KEY" = Some key -> key <> "" ->
  let rows := default [] (weather_location w) in
  let weather_pipeline :=
    mk_WeatherPipeline (mk_WeatherData key (environ w !! "WEATHER_API_BASE_URL")) in
  let w1 :=
    set_stdout (stdout w ++ ["Locations retrieved: len(" +:+ Pipeline.repr_rows rows +:+ ")"])
      (set_instances (Some weather_pipeline) (set_weather_location (Some rows) w)) in
  Pipeline.main w =
  match Pipeline.run_locations weather_pipeline (WriterObj LocalWriter) (today w) rows w1
  with
  | (Ok _, w2) =>
      (Ok tt, set_stdout (stdout w2 ++ ["Weather data pipeline executed successfully."]) w2)
  | (Raise e, w2) => (Raise e, w2)
  end.
Proof.
  intros Hi Hp Hk Hne rows weather_pipeline w1.
  unfold Pipeline.main. unfold bind at 1. rewrite (pipeline_new_fresh w path Hi Hp).
  set (w0 := match weather_location w with
             | Some _ => w
             | None => set_weather_location (Some []) w
             end).
  assert (w0 = set_weather_location (Some rows) w) as ->.
  { subst w0 rows. destruct w as [? ? ? ? [t|] ? ? ? ? ? ? ?]; reflexivity. }
  rewrite (WeatherData_init_key _ key) by done. simpl.
  unfold bind, get_writer, Pipeline.get_locations, try_except_expr, con_sql,
    run_statement, sql_select_all, gets, print, modify, ret.
  simpl. fold rows. fold weather_pipeline. fold w1.
  by destruct (Pipeline.run_locations weather_pipeline (WriterObj LocalWriter) (today w)
                 rows w1) as [[[]|e] w2].
Qed.

(** Without a database path, or without a usable API key, the script body
    raises. *)
Lemma missing_setting_aborts_main w :
  instances w = None ->
  environ w !! "DUCK_DB_PATH" = None \/
  environ w !! "WEATHER_API_KEY" = None \/ environ w !! "WEATHER_API_KEY" = Some "" ->
  exists e, fst (Pipeline.main w) = Raise e.
Proof.
  intros Hi H. unfold Pipeline.main, bind at 1.
  destruct (environ w !! "DUCK_DB_PATH") as [path|] eqn:Hp.
  - destruct H as [H|H]; [done|].
    rewrite (pipeline_new_fresh w path Hi Hp).
    rewrite WeatherData_init_no_key; [eauto|].
    by destruct (weather_location w).
  - rewrite (pipeline_new_no_database w Hi Hp). eauto.
Qed.

(** X17: a run of the script body that completes has handled every
    registered location exactly once and in table order: one request per
    location was sent to its history URL, one [write] per location was made
    for the destination [./output/<location>/<today>.json], and the last
    line printed is the success line. *)
Theorem completed_run_handled_every_location (w w' : World) (key : string)
    (rows : list string) :
  instances w = None ->
  environ w !! "WEATHER_API_KEY" = Some key ->
  weather_location w = Some rows ->
  Pipeline.main w = (Ok tt, w') ->
  sent w' = sent w ++
    map (fun location =>
           fmt_opt (environ w !! "WEATHER_API_BASE_URL") +:+ "history.json?key=" +:+ key
             +:+ "&q=" +:+ location +:+ "&dt=" +:+ today w) rows /\
  map snd (write_calls w') = map snd (write_calls w) ++
    map (fun location => "./output/" +:+ location +:+ "/" +:+ today w +:+ ".json") rows /\
  last (stdout w') = Some "Weather data pipeline executed successfully.".
Proof.
  intros Hi Hk Ht Hmain.
  destruct (decide (key = "")) as [->|Hne].
  { destruct (missing_setting_aborts_main w) as [e He]; [done|tauto|].
    rewrite Hmain in He. done. }
  destruct (environ w !! "DUCK_DB_PATH") as [path|] eqn:Hp; last first.
  { destruct (missing_setting_aborts_main w) as [e He]; [done|tauto|].
    rewrite Hmain in He. done. }
  rewrite (main_fresh w path key Hi Hp Hk Hne), Ht in Hmain. simpl in Hmain.
  match type of Hmain with
  | context [Pipeline.run_locations ?p ?wr ?t rows ?w1] =>
      destruct (Pipeline.run_locations p wr t rows w1) as [[[]|e] w2] eqn:Hrun
  end; [|done].
  simplify_eq. simpl.
  pose proof (run_locations_ok_sent _ _ _ _ _ _ Hrun) as Hs.
  pose proof (run_locations_ok_writes _ _ _ _ _ _ Hrun) as Hw.
  simpl in Hs, Hw. split; [done|]. split; [done|]. apply last_snoc.
Qed.

Lemma completed_run_handled_every_location_witness :
  let w := Examples.world Examples.env_full
             (Examples.always (Examples.respond 200 "OK" (Some Examples.payload)))
             (Some ["A"; "B"]) ∅ in
  let w' := snd (Pipeline.main w) in
  sent w' = ["http://api/history.json?key=K&q=A&dt=2024-01-01";
             "http://api/history.json?key=K&q=B&dt=2024-01-01"] /\
  map snd (write_calls w') = ["./output/A/2024-01-01.json"; "./output/B/2024-01-01.json"] /\
  last (stdout w') = Some "Weather data pipeline executed successfully.".
Proof.
  intros w w'.
  apply (completed_run_handled_every_location w w' "K" ["A"; "B"]).
  - reflexivity.
  - reflexivity.
  - reflexivity.
  - vm_compute. reflexivity.
Defined.



(** ** One location: how failures look to the caller *)



(** X20: for an HTTP error response (status 400..599) the exception of
    [get_and_write_forecast_history] does not tell what went wrong: whatever
    the status and the body of the response, and whatever the writer, the
    call raises [Exception] with the same text, made from the empty
    dictionary; the status appears only in the line [__send_request]
    printed. *)
Theorem http_error_gives_the_same_exception (self : WeatherPipeline)
    (date location : string) (writer : PyObj) (destination : string) (w : World)
    (r : Response) :
  remote w (sent w)
    (fmt_opt (BASE_URL (weather_data self)) +:+ "history.json?key="
       +:+ API_KEY (weather_data self) +:+ "&q=" +:+ location +:+ "&dt=" +:+ date)
  = Responded r ->
  (400 <= status_code r < 600)%Z ->
  fst (Pipeline.get_and_write_forecast_history self date location writer destination w)
  = Raise (mk_exn Exception_ "Failed to fetch data: {}").
Proof.
  intros Hr Hs.
  pose proof (send_request_http_error (weather_data self) _ w r Hr Hs) as Hf.
  match type of Hr with
  | remote w (sent w) ?u = _ =>
      destruct (Weather.__send_request (weather_data self) u w) as [res w1] eqn:Hsend
  end.
  simpl in Hf. subst res.
  rewrite (get_and_write_not_200 self date location writer destination w empty_dict
             (status_code r) w1 Hsend); [done|lia].
Qed.

Lemma http_error_gives_the_same_exception_witness :
  let w := Examples.world Examples.env_full
             (Examples.always (Examples.respond 403 "Forbidden"
                (Some (PyDict [("error", PyStr "API key disabled")]))))
             (Some []) ∅ in
  fst (Pipeline.get_and_write_forecast_history Examples.pipeline "2024-01-01" "10001"
         (WriterObj LocalWriter) "/tmp/out/10001/2024-01-01.json" w)
  = Raise (mk_exn Exception_ "Failed to fetch data: {}").
Proof.
  intros w.
  apply (http_error_gives_the_same_exception Examples.pipeline "2024-01-01" "10001"
           (WriterObj LocalWriter) "/tmp/out/10001/2024-01-01.json" w
           (mk_response 403 "Forbidden"
              (Some (PyDict [("error", PyStr "API key disabled")])))).
  - reflexivity.
  - simpl. lia.
Defined.
